(* ===================================================================== *)
(* tensor2tensor/tpu/tpu_trainer_lib.py: configuration assembly for a     *)
(* training run (run configuration, estimator, experiment, problem        *)
(* hyperparameters), as a shallow embedding.                              *)
(* ===================================================================== *)

From Stdlib Require Import ZArith Lia Ascii String.
From stdpp Require Import gmap strings list fin_maps.

Open Scope Z_scope.

(* --------------------------------------------------------------------- *)
(* Python values that flow through the module                             *)
(* --------------------------------------------------------------------- *)

(** Values stored in the [t2t_device_info] dict and forwarded through
    [*args] / [**kwargs]. *)
Inductive PyVal : Type :=
  | PyNone
  | PyBool (b : bool)
  | PyInt (z : Z)
  | PyStr (s : string).

(** [int(b)] on a Python bool. *)
Definition int_of_bool (b : bool) : Z := if b then 1 else 0.

(** Truth value of a Python object in an [if]. *)
Definition truthy (v : PyVal) : bool :=
  match v with
  | PyNone => false
  | PyBool b => b
  | PyInt z => negb (z =? 0)
  | PyStr s => negb (String.eqb s EmptyString)
  end.

(** The exceptions that can cross this module. *)
Inductive exn : Type :=
  | AttributeError
  | IndexError
  | LookupError
  | TypeError
  | ValueError.

Inductive Result (A : Type) : Type :=
  | Ok (a : A)
  | Raise (e : exn).
Arguments Ok {A} a.
Arguments Raise {A} e.

(* --------------------------------------------------------------------- *)
(* String operations                                                      *)
(* --------------------------------------------------------------------- *)

(** [needle in hay] on two Python strings. *)
Fixpoint contains (needle hay : string) : bool :=
  String.prefix needle hay
  || match hay with
     | EmptyString => false
     | String _ rest => contains needle rest
     end.

(** The needle occurs in the hay, as a statement. *)
Definition substring_of (needle hay : string) : Prop :=
  exists before after,
    hay = String.append before (String.append needle after).

(** [needle not in v]: a substring test on a string, [TypeError] on the
    values that are not iterable. *)
Definition py_not_in (needle : string) (v : PyVal) : Result bool :=
  match v with
  | PyStr hay => Ok (negb (contains needle hay))
  | _ => Raise TypeError
  end.

(** [s.split(sep)] for a separator of one character. *)
Fixpoint split (sep : ascii) (s : string) : list string :=
  match s with
  | EmptyString => [EmptyString]
  | String c rest =>
      if Ascii.eqb c sep then EmptyString :: split sep rest
      else match split sep rest with
           | [] => [String c EmptyString]
           | piece :: pieces => String c piece :: pieces
           end
  end.

(** [sep.join(pieces)], the inverse used to state what [split] returns. *)
Fixpoint join (sep : ascii) (pieces : list string) : string :=
  match pieces with
  | [] => EmptyString
  | [piece] => piece
  | piece :: rest => String.append piece (String sep (join sep rest))
  end.

Definition hyphen : ascii := "-"%char.

(** How often a character occurs in a string, to count the names a
    hyphen-delimited string holds. *)
Fixpoint count_char (c : ascii) (s : string) : nat :=
  match s with
  | EmptyString => 0%nat
  | String a rest =>
      ((if Ascii.eqb a c then 1 else 0) + count_char c rest)%nat
  end.

(** [v.split("-")]: only strings have the method. *)
Definition py_split_hyphen (v : PyVal) : Result (list string) :=
  match v with
  | PyStr s => Ok (split hyphen s)
  | _ => Raise AttributeError
  end.

(* --------------------------------------------------------------------- *)
(* create_run_config                                                      *)
(* --------------------------------------------------------------------- *)

(** [tf.ConfigProto(allow_soft_placement=..., log_device_placement=...)];
    the framework constructors are records of the keyword arguments they
    are given. *)
Record ConfigProto : Type := mkConfigProto {
  allow_soft_placement : bool;
  log_device_placement : bool
}.

(** [tf.contrib.tpu.TPUConfig(...)]. *)
Record TPUConfig : Type := mkTPUConfig {
  iterations_per_loop : Z;
  num_shards : Z;
  per_host_input_for_training : bool
}.

Inductive RunConfigCls : Type :=
  | EstimatorRunConfig   (* tf.estimator.RunConfig *)
  | TPURunConfig.        (* tf.contrib.tpu.RunConfig *)

(** The object built by [run_config_cls] from the [run_config_args] dict,
    with the two attributes [use_tpu] and [t2t_device_info] set on it
    afterwards.  [master] and [tpu_config] are [None] when the key is not
    in [run_config_args]; [model_dir] is [None] for Python's [None]. *)
Record RunConfig : Type := mkRunConfig {
  run_config_cls : RunConfigCls;
  model_dir : option string;
  session_config : ConfigProto;
  save_summary_steps : Z;
  save_checkpoints_steps : Z;
  master : option string;
  tpu_config : option TPUConfig;
  use_tpu : bool;
  t2t_device_info : gmap string PyVal
}.

Definition create_run_config
    (master_arg : string) (model_dir_arg : option string)
    (iterations_per_loop_arg num_shards_arg : Z)
    (log_device_placement_arg : bool) (save_checkpoints_steps_arg : Z)
    (num_gpus : Z) (gpu_order : string) (shard_to_cpu : bool)
    (num_async_replicas : Z) (use_tpu_arg : bool) : RunConfig :=
  let session_config :=
    mkConfigProto true log_device_placement_arg in
  let t2t_device_info : gmap string PyVal :=
    if negb use_tpu_arg then
      <["num_gpus" := PyInt num_gpus]>
      (<["gpu_order" := PyStr gpu_order]>
      (<["shard_to_cpu" := PyBool shard_to_cpu]>
      (<["num_shards" := PyInt (Z.max 1 (num_gpus + int_of_bool shard_to_cpu))]>
      (<["num_async_replicas" := PyInt num_async_replicas]> ∅))))
    else ∅ in
  if use_tpu_arg then
    let tpu_config :=
      mkTPUConfig iterations_per_loop_arg num_shards_arg
                  (num_shards_arg <=? 8) in
    mkRunConfig TPURunConfig model_dir_arg session_config 0
                save_checkpoints_steps_arg (Some master_arg)
                (Some tpu_config) use_tpu_arg t2t_device_info
  else
    mkRunConfig EstimatorRunConfig model_dir_arg session_config 0
                save_checkpoints_steps_arg None None
                use_tpu_arg t2t_device_info.


(* --------------------------------------------------------------------- *)
(* The objects owned by the framework and by the rest of the library      *)
(* --------------------------------------------------------------------- *)

(** Opaque objects this module only passes around: a problem of the
    registry, the hyperparameters a problem derives, the model function
    made by [T2TModel.make_estimator_model_fn] and the input functions made
    by [Problem.make_estimator_input_fn]. *)
Class ExternalTypes : Type := {
  Problem : Type;
  PHParams : Type;
  ModelFn : Type;
  InputFn : Type
}.

(** [tf.estimator.ModeKeys]. *)
Inductive ModeKeys : Type := TRAIN | EVAL.

(** The caller's hyperparameters object, with the attributes this module
    reads or writes.  [data_dir] is [None] while the attribute is absent. *)
Record HParams `{ExternalTypes} : Type := mkHParams {
  tpu_batch_size_per_shard : Z;
  data_dir : option PyVal;
  problems : list PHParams;
  problem_instances : list Problem
}.
Arguments mkHParams {_} _ _ _ _.

(** The operations this module calls on those objects.
    [registry] is the table behind [registry.problem]; [add_hparam] is
    [HParams.add_hparam] of the framework and may refuse a name. *)
Class External `{ExternalTypes} : Type := {
  registry : gmap string Problem;
  get_hparams : Problem -> HParams -> PHParams;
  make_estimator_input_fn : Problem -> ModeKeys -> HParams -> InputFn;
  make_estimator_model_fn : PyVal -> HParams -> PyVal -> ModelFn;
  add_hparam : string -> PyVal -> HParams -> Result HParams
}.

(** [tf.contrib.tpu.TPUEstimator(...)] and [tf.estimator.Estimator(...)],
    each with the keyword arguments it is given. *)
Inductive Estimator `{ExternalTypes} : Type :=
  | TPUEstimator (model_fn : ModelFn) (est_model_dir : option string)
                 (config : RunConfig)
                 (train_batch_size : Z) (eval_batch_size : option Z)
  | GenericEstimator (model_fn : ModelFn) (est_model_dir : option string)
                     (config : RunConfig).
Arguments TPUEstimator {_} _ _ _ _ _.
Arguments GenericEstimator {_} _ _ _.

(** [tf.contrib.learn.Experiment(...)]. *)
Record Experiment `{ExternalTypes} : Type := mkExperiment {
  estimator : Estimator;
  train_input_fn : InputFn;
  eval_input_fn : InputFn;
  train_steps : PyVal;
  eval_steps : PyVal;
  min_eval_frequency : PyVal;
  train_steps_per_iteration : PyVal
}.
Arguments mkExperiment {_} _ _ _ _ _ _ _.

(** The extra arguments of [create_experiment], after [run_config] and
    [hparams]. *)
Record ExtraArgs : Type := mkExtraArgs {
  arg_model_name : PyVal;
  arg_problem_name : PyVal;
  arg_data_dir : PyVal;
  arg_train_steps : PyVal;
  arg_eval_steps : PyVal;
  arg_min_eval_frequency : PyVal;
  arg_schedule : PyVal;
  arg_use_tpu : PyVal
}.

Section Trainer.

Context `{Ext : External}.

(* --- computations on the shared hyperparameters object ---------------- *)

(** A computation that may mutate the hyperparameters object and may
    raise; what it wrote before raising stays written. *)
Definition M (A : Type) : Type := HParams -> Result A * HParams.

Definition ret {A} (a : A) : M A := fun h => (Ok a, h).

Definition raise {A} (e : exn) : M A := fun h => (Raise e, h).

Definition bind {A B} (c : M A) (k : A -> M B) : M B :=
  fun h =>
    match c h with
    | (Ok a, h') => k a h'
    | (Raise e, h') => (Raise e, h')
    end.

Definition lift {A} (r : Result A) : M A := fun h => (r, h).

(** Evaluate an expression that reads the object. *)
Definition reads {A} (f : HParams -> A) : M A := fun h => (Ok (f h), h).

(** Run a mutation that either replaces the object or raises. *)
Definition update (f : HParams -> Result HParams) : M unit :=
  fun h =>
    match f h with
    | Ok h' => (Ok tt, h')
    | Raise e => (Raise e, h)
    end.

Definition modify (f : HParams -> HParams) : M unit :=
  fun h => (Ok tt, f h).

Notation "x <- c ;; k" := (bind c (fun x => k))
  (at level 100, c at next level, right associativity).
Notation "c ;;; k" := (bind c (fun _ => k))
  (at level 100, right associativity).

(** [for x in xs: body(x)]. *)
Fixpoint for_each {A} (xs : list A) (body : A -> M unit) : M unit :=
  match xs with
  | [] => ret tt
  | x :: rest => body x ;;; for_each rest body
  end.

(* --- attribute writes ------------------------------------------------- *)

Definition set_problems (l : list PHParams) (h : HParams) : HParams :=
  mkHParams (tpu_batch_size_per_shard h) (data_dir h) l (problem_instances h).

Definition set_problem_instances (l : list Problem) (h : HParams) : HParams :=
  mkHParams (tpu_batch_size_per_shard h) (data_dir h) (problems h) l.

(* --- add_problem_hparams ---------------------------------------------- *)

(** Modelled from the spec: [registry.problem(name)] of
    tensor2tensor/utils/registry.py, which is not part of the sources at
    hand; it looks the name up in the global table and raises a lookup
    error on an unknown name. *)
Definition registry_problem (name : string) : Result Problem :=
  match registry !! name with
  | Some problem => Ok problem
  | None => Raise LookupError
  end.

(** The body of the loop of [add_problem_hparams]. *)
Definition add_problem (problem_name : string) : M unit :=
  problem <- lift (registry_problem problem_name) ;;
  p_hparams <- reads (get_hparams problem) ;;
  modify (fun h =>
    set_problem_instances (problem_instances h ++ [problem]) h) ;;;
  modify (fun h => set_problems (problems h ++ [p_hparams]) h).

Definition add_problem_hparams (problems_arg : PyVal) : M unit :=
  modify (set_problems []) ;;;
  modify (set_problem_instances []) ;;;
  names <- lift (py_split_hyphen problems_arg) ;;
  for_each names add_problem.

(** The object after both lists were reset, and after one more problem,
    or a list of them in order, was attached to it: the states the loop
    goes through. *)
Definition reset_problems (h : HParams) : HParams :=
  set_problem_instances [] (set_problems [] h).

Definition attach (problem : Problem) (h : HParams) : HParams :=
  set_problems (problems h ++ [get_hparams problem h])
               (set_problem_instances (problem_instances h ++ [problem]) h).

Definition attach_all (ps : list Problem) (h : HParams) : HParams :=
  foldl (fun h problem => attach problem h) h ps.

(** Every name has a problem in the registry, in order. *)
Definition registered (names : list string) (ps : list Problem) : Prop :=
  Forall2 (fun name problem => registry !! name = Some problem) names ps.

(* --- create_estimator ------------------------------------------------- *)

Definition create_estimator (model_name : PyVal) (hparams : HParams)
    (run_config : RunConfig) (schedule use_tpu_arg : PyVal)
    : Result Estimator :=
  let model_fn := make_estimator_model_fn model_name hparams use_tpu_arg in
  if truthy use_tpu_arg then
    let batch_size := tpu_batch_size_per_shard hparams in
    match tpu_config run_config with
    | None => Raise AttributeError
    | Some tc =>
        let batch_size := batch_size * num_shards tc in
        let eval_batch_size := Some (batch_size * 2) in
        match py_not_in "eval" schedule with
        | Raise e => Raise e
        | Ok no_eval =>
            let eval_batch_size :=
              if no_eval then None else eval_batch_size in
            Ok (TPUEstimator model_fn (model_dir run_config) run_config
                             batch_size eval_batch_size)
        end
    end
  else
    Ok (GenericEstimator model_fn (model_dir run_config) run_config).

(* --- create_experiment ------------------------------------------------ *)

(** [l[0]]. *)
Definition first_item {A} (l : list A) : Result A :=
  match l with
  | [] => Raise IndexError
  | x :: _ => Ok x
  end.

Definition create_experiment (run_config : RunConfig)
    (model_name problem_name data_dir_arg train_steps_arg eval_steps_arg
     min_eval_frequency_arg schedule use_tpu_arg : PyVal) : M Experiment :=
  update (add_hparam "data_dir" data_dir_arg) ;;;
  add_problem_hparams problem_name ;;;
  estimator <- (fun h =>
    (create_estimator model_name h run_config schedule use_tpu_arg, h)) ;;
  problem <- (fun h => (first_item (problem_instances h), h)) ;;
  train_input_fn <- reads (make_estimator_input_fn problem TRAIN) ;;
  eval_input_fn <- reads (make_estimator_input_fn problem EVAL) ;;
  ret (mkExperiment estimator train_input_fn eval_input_fn
                    train_steps_arg eval_steps_arg
                    min_eval_frequency_arg min_eval_frequency_arg).

(* --- calling create_experiment with unpacked arguments ---------------- *)

(** The parameters of [create_experiment] after [run_config] and
    [hparams], in order. *)
Definition extra_params : list string :=
  ["model_name"; "problem_name"; "data_dir"; "train_steps"; "eval_steps";
   "min_eval_frequency"; "schedule"; "use_tpu"].

(** The defaults of its signature. *)
Definition param_defaults : gmap string PyVal :=
  <["schedule" := PyStr "train_and_evaluate"]>
  (<["use_tpu" := PyBool true]> ∅).

(** The value one parameter receives: from its position, from its keyword,
    or from its default; [TypeError] when it gets two values or none. *)
Definition bind_param (args : list PyVal) (kwargs : gmap string PyVal)
    (i : nat) (name : string) : Result PyVal :=
  match args !! i, kwargs !! name with
  | Some _, Some _ => Raise TypeError
  | Some v, None => Ok v
  | None, Some v => Ok v
  | None, None =>
      match param_defaults !! name with
      | Some v => Ok v
      | None => Raise TypeError
      end
  end.

Definition known_keyword (name : string) : bool :=
  bool_decide (name ∈ extra_params).

(** Python's argument binding for
    [create_experiment(run_config, hparams, *args, **kwargs)]:
    too many positional arguments, a keyword that is no parameter or that
    names [run_config] or [hparams] again, a parameter given twice and a
    required parameter left out are all [TypeError]s. *)
Definition bind_extra_args (args : list PyVal) (kwargs : gmap string PyVal)
    : Result ExtraArgs :=
  if (length extra_params <? length args)%nat then Raise TypeError
  else if negb (forallb known_keyword (elements (dom kwargs)))
  then Raise TypeError
  else
    match bind_param args kwargs 0 "model_name",
          bind_param args kwargs 1 "problem_name",
          bind_param args kwargs 2 "data_dir",
          bind_param args kwargs 3 "train_steps",
          bind_param args kwargs 4 "eval_steps",
          bind_param args kwargs 5 "min_eval_frequency",
          bind_param args kwargs 6 "schedule",
          bind_param args kwargs 7 "use_tpu" with
    | Ok m, Ok p, Ok d, Ok ts, Ok es, Ok f, Ok s, Ok u =>
        Ok (mkExtraArgs m p d ts es f s u)
    | _, _, _, _, _, _, _, _ => Raise TypeError
    end.

(** The call [create_experiment(run_config, hparams, *args, **kwargs)]. *)
Definition call_create_experiment (run_config : RunConfig)
    (args : list PyVal) (kwargs : gmap string PyVal) : M Experiment :=
  match bind_extra_args args kwargs with
  | Raise e => raise e
  | Ok a =>
      create_experiment run_config
        (arg_model_name a) (arg_problem_name a) (arg_data_dir a)
        (arg_train_steps a) (arg_eval_steps a) (arg_min_eval_frequency a)
        (arg_schedule a) (arg_use_tpu a)
  end.

(* --- create_experiment_fn --------------------------------------------- *)

(** The closure [experiment_fn] over the captured [args] and [kwargs]; the
    hyperparameters object it is called with is the state of [M]. *)
Definition create_experiment_fn (args : list PyVal)
    (kwargs : gmap string PyVal) : RunConfig -> M Experiment :=
  fun run_config => call_create_experiment run_config args kwargs.

End Trainer.

(* --------------------------------------------------------------------- *)
(* The builders with the framework calls that can refuse                  *)
(* --------------------------------------------------------------------- *)

(** [tf.contrib.tpu.TPUConfig(...)] as a call that can refuse: the
    framework checks the arguments of the constructor and raises
    [ValueError] on the ones it rejects, a shard count that is not
    positive among them.  [accepts] is that check. *)
Definition new_tpu_config (accepts : Z -> Z -> bool -> bool)
    (iterations shards : Z) (per_host : bool) : Result TPUConfig :=
  if accepts iterations shards per_host
  then Ok (mkTPUConfig iterations shards per_host)
  else Raise ValueError.

(** [create_run_config] with that check in place: no configuration results
    from arguments the accelerator sub-record is refused for. *)
Definition create_run_config_checked (accepts : Z -> Z -> bool -> bool)
    (master_arg : string) (model_dir_arg : option string)
    (iterations_per_loop_arg num_shards_arg : Z)
    (log_device_placement_arg : bool) (save_checkpoints_steps_arg : Z)
    (num_gpus : Z) (gpu_order : string) (shard_to_cpu : bool)
    (num_async_replicas : Z) (use_tpu_arg : bool) : Result RunConfig :=
  let session_config :=
    mkConfigProto true log_device_placement_arg in
  if use_tpu_arg then
    match new_tpu_config accepts iterations_per_loop_arg num_shards_arg
                         (num_shards_arg <=? 8) with
    | Raise e => Raise e
    | Ok tpu_config =>
        Ok (mkRunConfig TPURunConfig model_dir_arg session_config 0
                        save_checkpoints_steps_arg (Some master_arg)
                        (Some tpu_config) use_tpu_arg ∅)
    end
  else
    Ok (mkRunConfig EstimatorRunConfig model_dir_arg session_config 0
          save_checkpoints_steps_arg None None use_tpu_arg
          (<["num_gpus" := PyInt num_gpus]>
           (<["gpu_order" := PyStr gpu_order]>
           (<["shard_to_cpu" := PyBool shard_to_cpu]>
           (<["num_shards" :=
                PyInt (Z.max 1 (num_gpus + int_of_bool shard_to_cpu))]>
           (<["num_async_replicas" := PyInt num_async_replicas]> ∅)))))).

(** The check the framework makes with [check_positive_integer]: a
    positive loop-iteration count and a positive shard count. *)
Definition positive_counts (iterations shards : Z) (per_host : bool)
    : bool :=
  (1 <=? iterations) && (1 <=? shards).

(** The three calls of [create_estimator] that leave this module, as calls
    that can refuse: [T2TModel.make_estimator_model_fn], which has to find
    the model, and the constructors of the two estimators, which check the
    configuration and the batch sizes they are given. *)
Class Constructors `{ExternalTypes} : Type := {
  estimator_model_fn : PyVal -> HParams -> PyVal -> Result ModelFn;
  new_tpu_estimator :
    ModelFn -> option string -> RunConfig -> Z -> option Z
    -> Result Estimator;
  new_estimator : ModelFn -> option string -> RunConfig -> Result Estimator
}.

Section CheckedEstimator.

Context `{Con : Constructors}.

(** [create_estimator] over these calls: their failures come out as they
    are raised, between the module's own. *)
Definition create_estimator_checked (model_name : PyVal) (hparams : HParams)
    (run_config : RunConfig) (schedule use_tpu_arg : PyVal)
    : Result Estimator :=
  match estimator_model_fn model_name hparams use_tpu_arg with
  | Raise e => Raise e
  | Ok model_fn =>
      if truthy use_tpu_arg then
        let batch_size := tpu_batch_size_per_shard hparams in
        match tpu_config run_config with
        | None => Raise AttributeError
        | Some tc =>
            let batch_size := batch_size * num_shards tc in
            let eval_batch_size := Some (batch_size * 2) in
            match py_not_in "eval" schedule with
            | Raise e => Raise e
            | Ok no_eval =>
                let eval_batch_size :=
                  if no_eval then None else eval_batch_size in
                new_tpu_estimator model_fn (model_dir run_config) run_config
                                  batch_size eval_batch_size
            end
        end
      else
        new_estimator model_fn (model_dir run_config) run_config
  end.

End CheckedEstimator.

(* --------------------------------------------------------------------- *)
(* A small instance of the external objects, to run the code on           *)
(* --------------------------------------------------------------------- *)

(** Problems are their names; the derived hyperparameters record the name
    and how many problems were attached when they were derived; a model
    function is the model name and an input function is a problem and a
    mode. *)
Definition demo_types : ExternalTypes :=
  {| Problem := string;
     PHParams := string * nat;
     ModelFn := PyVal;
     InputFn := string * ModeKeys |}.

Definition demo_registry : gmap string string :=
  <["probA" := "probA"]> (<["probB" := "probB"]> ∅).

(** [add_hparam] as the framework has it for the one attribute modelled:
    it refuses a name whose attribute already has a value other than
    [None]. *)
Definition demo_add_hparam (name : string) (v : PyVal)
    (h : @HParams demo_types) : Result (@HParams demo_types) :=
  if String.eqb name "data_dir" then
    match data_dir h with
    | None | Some PyNone =>
        Ok (mkHParams (tpu_batch_size_per_shard h) (Some v)
                      (problems h) (problem_instances h))
    | Some _ => Raise ValueError
    end
  else Ok h.

Definition demo_external : @External demo_types :=
  {| registry := demo_registry : gmap string (@Problem demo_types);
     get_hparams := fun (p : @Problem demo_types) h =>
       ((p, List.length (problem_instances h)) : @PHParams demo_types);
     make_estimator_input_fn := fun (p : @Problem demo_types) mode _ =>
       ((p, mode) : @InputFn demo_types);
     make_estimator_model_fn := fun model_name _ _ =>
       (model_name : @ModelFn demo_types);
     add_hparam := demo_add_hparam |}.

(** Hyperparameters as a caller hands them over: stale problem lists, no
    data directory yet. *)
Definition demo_hparams : @HParams demo_types :=
  mkHParams 16 None
            ([("stale", 7%nat)] : list (@PHParams demo_types))
            (["stale"] : list (@Problem demo_types)).

Definition demo_tpu_config : RunConfig :=
  create_run_config "grpc://tpu" (Some "/tmp/model") 500 8 false 1000
                    1 "" false 1 true.

(** Constructors that refuse as the framework does: the model has to be
    the one that is registered, and the accelerator estimator wants
    positive batch sizes. *)
Definition demo_constructors : @Constructors demo_types :=
  {| estimator_model_fn := fun model_name _ _ =>
       match model_name with
       | PyStr "transformer" => Ok (model_name : @ModelFn demo_types)
       | _ => Raise LookupError
       end;
     new_tpu_estimator := fun model_fn dir config train eval_bs =>
       if (1 <=? train)
          && match eval_bs with Some ev => 1 <=? ev | None => true end
       then Ok (TPUEstimator model_fn dir config train eval_bs)
       else Raise ValueError;
     new_estimator := fun model_fn dir config =>
       Ok (GenericEstimator model_fn dir config) |}.

(* ===================================================================== *)
(* Theorems                                                               *)
(* ===================================================================== *)

(* --------------------------------------------------------------------- *)
(* Strings: what [contains] and [split] compute                           *)
(* --------------------------------------------------------------------- *)

Lemma append_nil (t : string) : String.append EmptyString t = t.
Proof. reflexivity. Qed.

Lemma append_cons (a : ascii) (s t : string) :
  String.append (String a s) t = String a (String.append s t).
Proof. reflexivity. Qed.

Ltac str_simpl := repeat (rewrite ?append_cons, ?append_nil in * ); simpl in *.

Lemma prefix_iff (p s : string) :
  String.prefix p s = true <-> exists rest, s = String.append p rest.
Proof.
  revert s; induction p as [|a p IH]; intros s; simpl.
  - destruct s; split; eauto.
  - destruct s as [|b s]; simpl.
    + split; [discriminate | intros [rest Hr]; discriminate].
    + destruct (ascii_dec a b) as [->|Hne].
      * rewrite IH.
        split; intros [rest Hr]; exists rest; str_simpl; congruence.
      * split; [discriminate | intros [rest Hr]; str_simpl; congruence].
Qed.

Lemma contains_nil (needle : string) :
  contains needle EmptyString = String.prefix needle EmptyString || false.
Proof. reflexivity. Qed.

Lemma contains_cons (needle : string) (c : ascii) (hay : string) :
  contains needle (String c hay)
  = String.prefix needle (String c hay) || contains needle hay.
Proof. reflexivity. Qed.

(** [contains needle hay] is the substring test: the needle occurs
    somewhere in the hay. *)
Lemma contains_iff (needle hay : string) :
  contains needle hay = true <-> substring_of needle hay.
Proof.
  unfold substring_of. induction hay as [|c hay IH].
  - rewrite contains_nil, orb_true_iff, prefix_iff. split.
    + intros [[rest Hr]|Hf]; [|discriminate]. exists EmptyString, rest. exact Hr.
    + intros [before [after H]]. left.
      destruct before; str_simpl; [eauto | discriminate].
  - rewrite contains_cons, orb_true_iff, prefix_iff, IH. split.
    + intros [[rest Hr]|[before [after H]]].
      * exists EmptyString, rest. exact Hr.
      * exists (String c before), after. str_simpl. congruence.
    + intros [before [after H]]. destruct before as [|b before]; str_simpl.
      * left. eauto.
      * right. exists before, after. congruence.
Qed.

Lemma split_not_nil (sep : ascii) (s : string) : split sep s <> [].
Proof.
  destruct s as [|c s]; simpl; [discriminate|].
  destruct (Ascii.eqb c sep); [discriminate|].
  destruct (split sep s); discriminate.
Qed.

(** Joining the pieces with the separator gives the string back: [split]
    cuts at the separators, loses nothing and keeps the order. *)
Lemma join_split (sep : ascii) (s : string) : join sep (split sep s) = s.
Proof.
  induction s as [|c s IH]; simpl; [reflexivity|].
  pose proof (split_not_nil sep s) as Hnil.
  destruct (Ascii.eqb_spec c sep) as [->|Hne];
    destruct (split sep s) as [|piece pieces]; try contradiction.
  - change (join sep (EmptyString :: piece :: pieces))
      with (String.append EmptyString (String sep (join sep (piece :: pieces)))).
    rewrite append_nil, IH. reflexivity.
  - destruct pieces as [|piece' pieces].
    + simpl in *. congruence.
    + change (join sep (String c piece :: piece' :: pieces))
        with (String.append (String c piece)
                (String sep (join sep (piece' :: pieces)))).
      change (join sep (piece :: piece' :: pieces))
        with (String.append piece (String sep (join sep (piece' :: pieces))))
        in IH.
      rewrite append_cons, IH. reflexivity.
Qed.

(** No piece contains the separator. *)
Lemma split_pieces_free (sep : ascii) (s : string) :
  Forall (fun piece => contains (String sep EmptyString) piece = false)
         (split sep s).
Proof.
  induction s as [|c s IH]; simpl.
  - constructor; [reflexivity | constructor].
  - destruct (Ascii.eqb_spec c sep) as [->|Hne].
    + constructor; [reflexivity | exact IH].
    + destruct (split sep s) as [|piece pieces]; simpl.
      * constructor; [|constructor]. simpl.
        destruct (ascii_dec sep c); [congruence | reflexivity].
      * inversion IH as [|? ? Hp Hps]; subst. constructor; [|exact Hps].
        simpl. destruct (ascii_dec sep c) as [->|_]; [congruence|].
        simpl. exact Hp.
Qed.

Lemma split_probA_probB :
  split hyphen "probA-probB" = ["probA"; "probB"].
Proof. reflexivity. Qed.

(* --------------------------------------------------------------------- *)
(* create_run_config                                                      *)
(* --------------------------------------------------------------------- *)

Section RunConfigFacts.

Variables (master_arg : string) (model_dir_arg : option string)
          (iters shards : Z) (log_dev : bool) (ckpt : Z)
          (gpus : Z) (gpu_order : string) (shard_to_cpu : bool)
          (replicas : Z).

Local Abbreviation generic_config :=
  (create_run_config master_arg model_dir_arg iters shards log_dev ckpt
                     gpus gpu_order shard_to_cpu replicas false).

Local Abbreviation accelerator_config :=
  (create_run_config master_arg model_dir_arg iters shards log_dev ckpt
                     gpus gpu_order shard_to_cpu replicas true).

Lemma generic_config_shape :
  run_config_cls generic_config = EstimatorRunConfig
  /\ tpu_config generic_config = None
  /\ master generic_config = None
  /\ use_tpu generic_config = false.
Proof. repeat split. Qed.

Lemma accelerator_config_shape :
  run_config_cls accelerator_config = TPURunConfig
  /\ master accelerator_config = Some master_arg
  /\ use_tpu accelerator_config = true.
Proof. repeat split. Qed.

(** Both classes get the same base arguments, with soft placement on and
    summaries off. *)
Lemma base_arguments (accelerated : bool) :
  let config :=
    create_run_config master_arg model_dir_arg iters shards log_dev ckpt
                      gpus gpu_order shard_to_cpu replicas accelerated in
  model_dir config = model_dir_arg
  /\ session_config config = mkConfigProto true log_dev
  /\ save_summary_steps config = 0
  /\ save_checkpoints_steps config = ckpt.
Proof. destruct accelerated; repeat split. Qed.

(** The generic device-info dict has exactly its five keys. *)
Lemma generic_device_info_keys :
  dom (t2t_device_info generic_config)
  = list_to_set ["num_gpus"; "gpu_order"; "shard_to_cpu"; "num_shards";
                 "num_async_replicas"].
Proof.
  unfold create_run_config; simpl.
  rewrite !dom_insert_L, dom_empty_L. set_solver.
Qed.

(** C7: in generic mode the device-info shard count is the GPU count plus
    one when CPU-sharding is on and the GPU count otherwise, floored at 1;
    with two GPUs and CPU-sharding it is 3. *)
Theorem generic_device_info_shard_count :
  t2t_device_info
    (create_run_config master_arg model_dir_arg iters shards log_dev ckpt
                       gpus gpu_order shard_to_cpu replicas false)
    !! "num_shards"
  = Some (PyInt (Z.max 1 (if shard_to_cpu then gpus + 1 else gpus)))
  /\ t2t_device_info
       (create_run_config master_arg model_dir_arg iters shards log_dev ckpt
                          2 gpu_order true replicas false)
       !! "num_shards"
     = Some (PyInt 3).
Proof.
  split; [|reflexivity].
  unfold create_run_config; simpl.
  rewrite !lookup_insert_ne by discriminate.
  rewrite lookup_insert_eq.
  destruct shard_to_cpu; simpl; [reflexivity|].
  rewrite Z.add_0_r. reflexivity.
Qed.

(** C8: in accelerator mode the accelerator sub-record carries exactly the
    requested shard count and loop-iteration count and the device-info
    record is empty; for 8 shards and 500 iterations they are 8 and 500. *)
Theorem accelerator_config_carries_counts :
  (exists tc,
     tpu_config
       (create_run_config master_arg model_dir_arg iters shards log_dev ckpt
                          gpus gpu_order shard_to_cpu replicas true)
     = Some tc
     /\ num_shards tc = shards
     /\ iterations_per_loop tc = iters)
  /\ t2t_device_info
       (create_run_config master_arg model_dir_arg iters shards log_dev ckpt
                          gpus gpu_order shard_to_cpu replicas true)
     = ∅
  /\ (exists tc,
        tpu_config
          (create_run_config master_arg model_dir_arg 500 8 log_dev ckpt
                             gpus gpu_order shard_to_cpu replicas true)
        = Some tc
        /\ num_shards tc = 8 /\ iterations_per_loop tc = 500).
Proof.
  split; [|split].
  - eexists; repeat split.
  - reflexivity.
  - eexists; repeat split.
Qed.

(** C10: in accelerator mode the per-host-input-for-training flag is true
    if and only if the requested shard count is at most 8. *)
Theorem per_host_input_iff_at_most_8 :
  exists tc,
    tpu_config
      (create_run_config master_arg model_dir_arg iters shards log_dev ckpt
                         gpus gpu_order shard_to_cpu replicas true)
    = Some tc
    /\ (per_host_input_for_training tc = true <-> shards <= 8).
Proof.
  eexists; split; [reflexivity|]. simpl. apply Z.leb_le.
Qed.

End RunConfigFacts.

(* --------------------------------------------------------------------- *)
(* create_run_config with the framework's check                           *)
(* --------------------------------------------------------------------- *)

Section RunConfigChecked.

Variable accepts : Z -> Z -> bool -> bool.

Variables (master_arg : string) (model_dir_arg : option string)
          (iters shards : Z) (log_dev : bool) (ckpt : Z)
          (gpus : Z) (gpu_order : string) (shard_to_cpu : bool)
          (replicas : Z).

(** A configuration that results is the one the builder computes. *)
Lemma create_run_config_checked_value (accelerated : bool)
    (config : RunConfig) :
  create_run_config_checked accepts master_arg model_dir_arg iters shards
    log_dev ckpt gpus gpu_order shard_to_cpu replicas accelerated
  = Ok config ->
  config
  = create_run_config master_arg model_dir_arg iters shards log_dev ckpt
      gpus gpu_order shard_to_cpu replicas accelerated.
Proof.
  unfold create_run_config_checked, new_tpu_config.
  destruct accelerated; [destruct (accepts iters shards (shards <=? 8))|];
    simpl; intros Heq; [|discriminate|]; injection Heq as <-; reflexivity.
Qed.

(** In accelerator mode a configuration results exactly for the arguments
    the constructor of the sub-record accepts. *)
Lemma create_run_config_checked_accelerated :
  create_run_config_checked accepts master_arg model_dir_arg iters shards
    log_dev ckpt gpus gpu_order shard_to_cpu replicas true
  = if accepts iters shards (shards <=? 8)
    then Ok (create_run_config master_arg model_dir_arg iters shards log_dev
               ckpt gpus gpu_order shard_to_cpu replicas true)
    else Raise ValueError.
Proof.
  unfold create_run_config_checked, new_tpu_config.
  destruct (accepts iters shards (shards <=? 8)); reflexivity.
Qed.

(** In generic mode a configuration always results. *)
Lemma create_run_config_checked_generic :
  create_run_config_checked accepts master_arg model_dir_arg iters shards
    log_dev ckpt gpus gpu_order shard_to_cpu replicas false
  = Ok (create_run_config master_arg model_dir_arg iters shards log_dev
          ckpt gpus gpu_order shard_to_cpu replicas false).
Proof. reflexivity. Qed.

(** C3, as the code has it: a configuration results in generic mode always
    and in accelerator mode when the framework accepts the arguments of
    the accelerator sub-record; in every configuration that results the
    accelerator shard count is the requested one and at least 1, and the
    generic device-info shard count is at least 1.  The generic count has
    its bound from the [max] in its computation; the accelerator count is
    handed over unchanged and has its bound from the framework, which
    refuses a shard count that is not positive.  The asynchronous replica
    count is stored as it is given. *)
Theorem shard_counts_at_least_one_when_built (accelerated : bool) :
  (forall i n p, accepts i n p = true -> 1 <= n) ->
  (accelerated = false \/ accepts iters shards (shards <=? 8) = true ->
   exists config,
     create_run_config_checked accepts master_arg model_dir_arg iters shards
       log_dev ckpt gpus gpu_order shard_to_cpu replicas accelerated
     = Ok config)
  /\ (forall config,
        create_run_config_checked accepts master_arg model_dir_arg iters
          shards log_dev ckpt gpus gpu_order shard_to_cpu replicas
          accelerated
        = Ok config ->
        (accelerated = true ->
         exists tc, tpu_config config = Some tc
                    /\ num_shards tc = shards
                    /\ 1 <= num_shards tc)
        /\ (accelerated = false ->
            tpu_config config = None
            /\ (exists n,
                  t2t_device_info config !! "num_shards" = Some (PyInt n)
                  /\ n = Z.max 1 (gpus + int_of_bool shard_to_cpu)
                  /\ 1 <= n)
            /\ t2t_device_info config !! "num_async_replicas"
               = Some (PyInt replicas))).
Proof.
  intros Hacc. split.
  - intros [->|Hok].
    + eexists. apply create_run_config_checked_generic.
    + destruct accelerated.
      * eexists. rewrite create_run_config_checked_accelerated, Hok.
        reflexivity.
      * eexists. apply create_run_config_checked_generic.
  - intros config Hrun. split.
    + intros ->. rewrite create_run_config_checked_accelerated in Hrun.
      destruct (accepts iters shards (shards <=? 8)) eqn:Hok;
        [|discriminate].
      injection Hrun as <-. eexists. split; [reflexivity|].
      split; [reflexivity|]. simpl. eapply Hacc, Hok.
    + intros ->. rewrite create_run_config_checked_generic in Hrun.
      injection Hrun as <-. split; [reflexivity|]. split; [|reflexivity].
      eexists. split; [reflexivity|]. split; [reflexivity|].
      apply Z.le_max_l.
Qed.

End RunConfigChecked.

Lemma positive_counts_shards (i n : Z) (p : bool) :
  positive_counts i n p = true -> 1 <= n.
Proof.
  unfold positive_counts. intros H.
  apply andb_true_iff in H as [_ H]. apply Z.leb_le, H.
Qed.

Lemma shard_counts_at_least_one_when_built_witness :
  (forall i n p, positive_counts i n p = true -> 1 <= n)
  /\ (exists config tc,
        create_run_config_checked positive_counts "grpc://tpu"
          (Some "/tmp/model") 500 8 false 1000 1 "" false 1 true
        = Ok config
        /\ tpu_config config = Some tc
        /\ num_shards tc = 8
        /\ 1 <= num_shards tc).
Proof.
  split; [exact positive_counts_shards|].
  destruct (shard_counts_at_least_one_when_built positive_counts
              "grpc://tpu" (Some "/tmp/model") 500 8 false 1000 1 "" false 1
              true positive_counts_shards) as [Hret Hbound].
  destruct (Hret (or_intror eq_refl)) as [config Hrun].
  destruct (Hbound config Hrun) as [Htpu _].
  destruct (Htpu eq_refl) as (tc & Htc & Hn & Hle).
  exists config, tc. repeat split; assumption.
Defined.

(** C3 fails as stated.  In generic mode a configuration results whose
    device info records an asynchronous replica count of 0: that count is
    stored as it is given, and no arithmetic bounds it.  In accelerator
    mode no arithmetic raises a requested shard count of 0 to 1 either: it
    is handed to the constructor of the sub-record as it is, which refuses
    it, so that no configuration results. *)
Lemma replica_count_zero_and_shards_refused :
  (exists config n,
     create_run_config_checked positive_counts "" None 1000 8 false 1000
       1 "" false 0 false
     = Ok config
     /\ t2t_device_info config !! "num_async_replicas" = Some (PyInt n)
     /\ ~ 1 <= n)
  /\ new_tpu_config positive_counts 1000 0 (0 <=? 8) = Raise ValueError
  /\ create_run_config_checked positive_counts "" None 1000 0 false 1000
       1 "" false 1 true
     = Raise ValueError.
Proof.
  split; [|split; reflexivity].
  eexists. exists 0. split; [reflexivity|]. split; [reflexivity|]. lia.
Qed.

(* --------------------------------------------------------------------- *)
(* add_problem_hparams                                                    *)
(* --------------------------------------------------------------------- *)

Section AttachFacts.

Context `{Ext : External}.

Lemma attach_all_snoc (ps : list Problem) (p : Problem) (h : HParams) :
  attach_all (ps ++ [p]) h = attach p (attach_all ps h).
Proof. unfold attach_all. rewrite foldl_app. reflexivity. Qed.

(** Attaching touches the two lists only. *)
Lemma attach_all_other_fields (ps : list Problem) (h : HParams) :
  tpu_batch_size_per_shard (attach_all ps h) = tpu_batch_size_per_shard h
  /\ data_dir (attach_all ps h) = data_dir h.
Proof.
  revert h; induction ps as [|p ps IH]; intros h; [split; reflexivity|].
  change (attach_all (p :: ps) h) with (attach_all ps (attach p h)).
  destruct (IH (attach p h)) as [-> ->]. split; reflexivity.
Qed.

Lemma attach_all_instances (ps : list Problem) (h : HParams) :
  problem_instances (attach_all ps h) = problem_instances h ++ ps.
Proof.
  revert h; induction ps as [|p ps IH]; intros h.
  - simpl. rewrite app_nil_r. reflexivity.
  - change (attach_all (p :: ps) h) with (attach_all ps (attach p h)).
    rewrite IH. simpl. rewrite <- app_assoc. reflexivity.
Qed.

Lemma attach_all_problems_length (ps : list Problem) (h : HParams) :
  length (problems (attach_all ps h)) = (length (problems h) + length ps)%nat.
Proof.
  revert h; induction ps as [|p ps IH]; intros h.
  - simpl. lia.
  - change (attach_all (p :: ps) h) with (attach_all ps (attach p h)).
    rewrite IH. simpl. rewrite length_app. simpl. lia.
Qed.

(** The derived sets of a prefix of the problems are a prefix of the
    derived sets. *)
Lemma attach_all_problems_take (ps : list Problem) (i : nat) (h : HParams) :
  problems (attach_all (take i ps) h)
  = take (length (problems h) + i) (problems (attach_all ps h)).
Proof.
  induction ps as [|p ps IH] using rev_ind.
  - rewrite take_nil. simpl. rewrite take_ge by lia. reflexivity.
  - destruct (decide (i <= length ps)%nat) as [Hle|Hgt].
    + rewrite take_app_le by exact Hle. rewrite IH, attach_all_snoc. simpl.
      rewrite take_app_le; [reflexivity|].
      rewrite attach_all_problems_length. lia.
    + rewrite (take_ge (ps ++ [p])) by (rewrite length_app; simpl; lia).
      rewrite take_ge; [reflexivity|].
      rewrite attach_all_problems_length, length_app. simpl. lia.
Qed.

(** The set derived for the problem at index [i] is derived from the object
    as it stood when the problems before it had been attached. *)
Lemma attach_all_problems_lookup (ps : list Problem) (i : nat) (p : Problem)
    (h : HParams) :
  ps !! i = Some p ->
  problems (attach_all ps h) !! (length (problems h) + i)%nat
  = Some (get_hparams p (attach_all (take i ps) h)).
Proof.
  induction ps as [|q ps IH] using rev_ind; intros Hi; [discriminate|].
  rewrite attach_all_snoc. simpl.
  destruct (decide (i < length ps)%nat) as [Hlt|Hge].
  - rewrite lookup_app_l in Hi by exact Hlt.
    rewrite lookup_app_l by (rewrite attach_all_problems_length; lia).
    rewrite take_app_le by lia. apply IH, Hi.
  - assert (i = length ps) as ->.
    { apply lookup_lt_Some in Hi. rewrite length_app in Hi. simpl in Hi. lia. }
    rewrite lookup_app_r in Hi by lia.
    rewrite Nat.sub_diag in Hi. simpl in Hi. injection Hi as ->.
    rewrite lookup_app_r by (rewrite attach_all_problems_length; lia).
    rewrite attach_all_problems_length.
    replace (length (problems h) + length ps
             - (length (problems h) + length ps))%nat with 0%nat by lia.
    rewrite take_app_le by lia. rewrite take_ge by lia. reflexivity.
Qed.

(** An object is its four attributes. *)
Lemma attach_all_reset_eta (ps : list Problem) (h : HParams) :
  attach_all ps (reset_problems h)
  = set_problems (problems (attach_all ps (reset_problems h)))
      (set_problem_instances
         (problem_instances (attach_all ps (reset_problems h))) h).
Proof.
  destruct (attach_all_other_fields ps (reset_problems h)) as [Hb Hd].
  destruct (attach_all ps (reset_problems h)) as [b d pr pi].
  simpl in *. subst. reflexivity.
Qed.

(** One iteration for a registered name attaches its problem. *)
Lemma add_problem_registered (name : string) (p : Problem) (h : HParams) :
  registry !! name = Some p ->
  add_problem name h = (Ok tt, attach p h).
Proof.
  intros Hp. unfold add_problem, bind, lift, reads, modify, registry_problem.
  rewrite Hp. reflexivity.
Qed.

(** One iteration for an unknown name raises and writes nothing. *)
Lemma add_problem_unknown (name : string) (h : HParams) :
  registry !! name = None ->
  add_problem name h = (Raise LookupError, h).
Proof.
  intros Hp. unfold add_problem, bind, lift, registry_problem.
  rewrite Hp. reflexivity.
Qed.

(** The loop over registered names attaches their problems in order. *)
Lemma for_each_registered (names : list string) (ps : list Problem)
    (h : HParams) :
  registered names ps ->
  for_each names add_problem h = (Ok tt, attach_all ps h).
Proof.
  intros Hreg; revert h.
  induction Hreg as [|name p names ps Hp _ IH]; intros h; [reflexivity|].
  simpl. unfold bind at 1. rewrite (add_problem_registered _ _ _ Hp).
  apply IH.
Qed.

(** The loop stops at the first unknown name, keeping what it attached. *)
Lemma for_each_unknown (pre : list string) (bad : string)
    (post : list string) (ps : list Problem) (h : HParams) :
  registered pre ps ->
  registry !! bad = None ->
  for_each (pre ++ bad :: post) add_problem h
  = (Raise LookupError, attach_all ps h).
Proof.
  intros Hreg Hbad; revert h.
  induction Hreg as [|name p names ps Hp _ IH]; intros h.
  - simpl. unfold bind. rewrite (add_problem_unknown _ _ Hbad). reflexivity.
  - simpl. unfold bind at 1. rewrite (add_problem_registered _ _ _ Hp).
    apply IH.
Qed.

(** Names that are all in the registry have their list of problems. *)
Lemma registered_total (names : list string) :
  Forall (fun name => is_Some (registry !! name)) names ->
  exists ps, registered names ps.
Proof.
  induction 1 as [|name names [p Hp] _ [ps IH]].
  - exists []. constructor.
  - exists (p :: ps). constructor; assumption.
Qed.

(** A list with an unknown name splits at the first one. *)
Lemma first_unknown (names : list string) :
  Exists (fun name => registry !! name = None) names ->
  exists pre bad post ps,
    names = pre ++ bad :: post
    /\ registry !! bad = None
    /\ registered pre ps.
Proof.
  induction names as [|name names IH]; intros Hex.
  - inversion Hex.
  - destruct (registry !! name) as [p|] eqn:Hp.
    + inversion Hex as [? ? Hnone|? ? Hrest]; subst; [congruence|].
      destruct (IH Hrest) as (pre & bad & post & ps & -> & Hbad & Hreg).
      exists (name :: pre), bad, post, (p :: ps).
      repeat split; [exact Hbad|]. constructor; assumption.
    + exists [], name, names, []. repeat split; [exact Hp | constructor].
Qed.

Lemma add_problem_hparams_unfold (s : string) (h : HParams) :
  add_problem_hparams (PyStr s) h
  = for_each (split hyphen s) add_problem (reset_problems h).
Proof. reflexivity. Qed.

End AttachFacts.

Section AttachClaims.

Context `{Ext : External}.

(** C4: for a hyphen-delimited string whose names are all registered,
    [add_problem_hparams] returns with the two lists reset and then filled
    with one problem instance and one derived hyperparameter set per name,
    in the order of the string: the instances are the problems of the names,
    and the set at each index is what that problem derives from the object
    holding the instances and sets before it.  For "probA-probB" there are
    exactly two of each, in that order. *)
Theorem add_problem_hparams_in_order (s : string) (h : HParams) :
  Forall (fun name => is_Some (registry !! name)) (split hyphen s) ->
  exists h',
    add_problem_hparams (PyStr s) h = (Ok tt, h')
    /\ registered (split hyphen s) (problem_instances h')
    /\ length (problems h') = length (split hyphen s)
    /\ (forall i p,
          problem_instances h' !! i = Some p ->
          problems h' !! i
          = Some (get_hparams p
                    (set_problems (take i (problems h'))
                       (set_problem_instances
                          (take i (problem_instances h')) h))))
    /\ (s = "probA-probB" ->
        exists pA pB,
          registry !! "probA" = Some pA
          /\ registry !! "probB" = Some pB
          /\ problem_instances h' = [pA; pB]
          /\ problems h'
             = [get_hparams pA (reset_problems h);
                get_hparams pB (attach pA (reset_problems h))]).
Proof.
  intros Hall. destruct (registered_total _ Hall) as [ps Hreg].
  exists (attach_all ps (reset_problems h)).
  assert (Hinst : problem_instances (attach_all ps (reset_problems h)) = ps).
  { rewrite attach_all_instances. reflexivity. }
  split; [|split; [|split; [|split]]].
  - rewrite add_problem_hparams_unfold. apply for_each_registered, Hreg.
  - rewrite Hinst. exact Hreg.
  - rewrite attach_all_problems_length. simpl.
    symmetry. eapply Forall2_length, Hreg.
  - intros i p Hi. rewrite Hinst in Hi.
    pose proof (attach_all_problems_lookup ps i p (reset_problems h) Hi) as Hl.
    simpl in Hl. rewrite Hl. f_equal. f_equal.
    rewrite (attach_all_reset_eta (take i ps) h).
    rewrite attach_all_problems_take, attach_all_instances, Hinst.
    reflexivity.
  - intros ->. rewrite split_probA_probB in Hreg.
    inversion Hreg as [|? pA ? ps1 HA Hreg1]; subst.
    inversion Hreg1 as [|? pB ? ps2 HB Hreg2]; subst.
    inversion Hreg2; subst.
    exists pA, pB. repeat split; assumption.
Qed.

(** C5: for a string with a name that is not in the registry,
    [add_problem_hparams] raises the lookup error of the registry at the
    first such name; the lists then hold the instances and sets of the
    registered names before it and nothing for the unknown name or for any
    name after it. *)
Theorem add_problem_hparams_unknown_name (s : string) (h : HParams) :
  Exists (fun name => registry !! name = None) (split hyphen s) ->
  exists pre bad post h',
    split hyphen s = pre ++ bad :: post
    /\ registry !! bad = None
    /\ add_problem_hparams (PyStr s) h = (Raise LookupError, h')
    /\ registered pre (problem_instances h')
    /\ length (problems h') = length pre.
Proof.
  intros Hex.
  destruct (first_unknown _ Hex) as (pre & bad & post & ps & Hs & Hbad & Hreg).
  exists pre, bad, post, (attach_all ps (reset_problems h)).
  split; [exact Hs|]. split; [exact Hbad|]. split; [|split].
  - rewrite add_problem_hparams_unfold, Hs.
    apply for_each_unknown; assumption.
  - rewrite attach_all_instances. exact Hreg.
  - rewrite attach_all_problems_length. simpl.
    symmetry. eapply Forall2_length, Hreg.
Qed.

End AttachClaims.

Lemma add_problem_hparams_in_order_witness :
  Forall (fun name => is_Some (demo_registry !! name))
         (split hyphen "probA-probB")
  /\ exists h',
       @add_problem_hparams demo_types demo_external (PyStr "probA-probB")
                            demo_hparams = (Ok tt, h')
       /\ problem_instances h' = ["probA"; "probB"]
       /\ problems h' = [("probA", 0%nat); ("probB", 1%nat)].
Proof.
  assert (Hall : Forall (fun name => is_Some (demo_registry !! name))
                        (split hyphen "probA-probB")).
  { repeat constructor; eexists; reflexivity. }
  split; [exact Hall|].
  destruct (@add_problem_hparams_in_order demo_types demo_external
              "probA-probB" demo_hparams Hall)
    as (h' & Hrun & _ & _ & _ & Hab).
  exists h'. split; [exact Hrun|].
  destruct (Hab eq_refl) as (pA & pB & HA & HB & Hi & Hp).
  injection HA as <-. injection HB as <-.
  split; [exact Hi | exact Hp].
Defined.

Lemma add_problem_hparams_unknown_name_witness :
  Exists (fun name => demo_registry !! name = None)
         (split hyphen "probA-probX-probB")
  /\ exists h',
       @add_problem_hparams demo_types demo_external
                            (PyStr "probA-probX-probB") demo_hparams
       = (Raise LookupError, h')
       /\ length (problem_instances h') = 1%nat
       /\ length (problems h') = 1%nat.
Proof.
  assert (Hex : Exists (fun name => demo_registry !! name = None)
                       (split hyphen "probA-probX-probB")).
  { apply Exists_cons_tl, Exists_cons_hd. reflexivity. }
  split; [exact Hex|].
  destruct (@add_problem_hparams_unknown_name demo_types demo_external
              "probA-probX-probB" demo_hparams Hex)
    as (pre & bad & post & h' & Hs & Hbad & Hrun & Hreg & Hlen).
  exists h'. split; [exact Hrun|].
  vm_compute in Hrun. injection Hrun as <-. split; reflexivity.
Defined.

(* --------------------------------------------------------------------- *)
(* create_estimator                                                       *)
(* --------------------------------------------------------------------- *)

Section EstimatorFacts.

Context `{Ext : External}.

Variables (model_name use_tpu_arg : PyVal) (hparams : HParams)
          (run_config : RunConfig).

(** Without accelerator mode the generic estimator is built, whatever the
    schedule is. *)
Lemma create_estimator_generic (schedule : PyVal) :
  truthy use_tpu_arg = false ->
  create_estimator model_name hparams run_config schedule use_tpu_arg
  = Ok (GenericEstimator
          (make_estimator_model_fn model_name hparams use_tpu_arg)
          (model_dir run_config) run_config).
Proof. intros Hu. unfold create_estimator. rewrite Hu. reflexivity. Qed.

(** A run configuration without accelerator sub-record has no
    [tpu_config] attribute to read. *)
Lemma create_estimator_no_tpu_config (schedule : PyVal) :
  truthy use_tpu_arg = true ->
  tpu_config run_config = None ->
  create_estimator model_name hparams run_config schedule use_tpu_arg
  = Raise AttributeError.
Proof.
  intros Hu Hc. unfold create_estimator. rewrite Hu, Hc. reflexivity.
Qed.

(** The accelerator estimator for a schedule string. *)
Lemma create_estimator_accelerated (tc : TPUConfig) (schedule : string) :
  truthy use_tpu_arg = true ->
  tpu_config run_config = Some tc ->
  create_estimator model_name hparams run_config (PyStr schedule) use_tpu_arg
  = Ok (TPUEstimator
          (make_estimator_model_fn model_name hparams use_tpu_arg)
          (model_dir run_config) run_config
          (tpu_batch_size_per_shard hparams * num_shards tc)
          (if contains "eval" schedule
           then Some (tpu_batch_size_per_shard hparams * num_shards tc * 2)
           else None)).
Proof.
  intros Hu Hc. unfold create_estimator. rewrite Hu, Hc. simpl.
  destruct (contains "eval" schedule); reflexivity.
Qed.

(** C1: in accelerator mode, for every schedule string, the evaluation
    batch size handed to the estimator is [None] exactly when "eval" does
    not occur in the schedule, and is the doubled batch size otherwise. *)
Theorem eval_batch_size_none_iff_no_eval (tc : TPUConfig)
    (schedule : string) :
  truthy use_tpu_arg = true ->
  tpu_config run_config = Some tc ->
  exists eval_bs,
    create_estimator model_name hparams run_config (PyStr schedule)
                     use_tpu_arg
    = Ok (TPUEstimator
            (make_estimator_model_fn model_name hparams use_tpu_arg)
            (model_dir run_config) run_config
            (tpu_batch_size_per_shard hparams * num_shards tc) eval_bs)
    /\ (eval_bs = None <-> ~ substring_of "eval" schedule)
    /\ (substring_of "eval" schedule ->
        eval_bs
        = Some (tpu_batch_size_per_shard hparams * num_shards tc * 2)).
Proof.
  intros Hu Hc. eexists. split; [apply create_estimator_accelerated; eassumption|].
  rewrite <- contains_iff.
  destruct (contains "eval" schedule); split.
  - split; [discriminate | intros Hn; exfalso; apply Hn; reflexivity].
  - reflexivity.
  - split; [intros _; discriminate | reflexivity].
  - discriminate.
Qed.

(** C2: in accelerator mode the training batch size handed to the
    estimator is [tpu_batch_size_per_shard] times the shard count of the
    run configuration, and an evaluation batch size that is handed over is
    twice that; with 16 per shard and 8 shards they are 128 and, under
    schedule "train_and_evaluate", 256. *)
Theorem accelerator_batch_sizes (tc : TPUConfig) (schedule : string) :
  truthy use_tpu_arg = true ->
  tpu_config run_config = Some tc ->
  exists eval_bs,
    create_estimator model_name hparams run_config (PyStr schedule)
                     use_tpu_arg
    = Ok (TPUEstimator
            (make_estimator_model_fn model_name hparams use_tpu_arg)
            (model_dir run_config) run_config
            (tpu_batch_size_per_shard hparams * num_shards tc) eval_bs)
    /\ (forall e, eval_bs = Some e ->
                  e = 2 * (tpu_batch_size_per_shard hparams * num_shards tc))
    /\ (tpu_batch_size_per_shard hparams = 16 -> num_shards tc = 8 ->
        tpu_batch_size_per_shard hparams * num_shards tc = 128
        /\ (schedule = "train_and_evaluate" -> eval_bs = Some 256)).
Proof.
  intros Hu Hc. eexists. split; [apply create_estimator_accelerated; eassumption|].
  split.
  - intros e He. destruct (contains "eval" schedule); [|discriminate].
    injection He as <-. lia.
  - intros Hp Hs. rewrite Hp, Hs. split; [reflexivity|].
    intros ->. reflexivity.
Qed.

End EstimatorFacts.

(** A schedule that is not a string cannot be searched: in accelerator
    mode the membership test raises. *)
Lemma create_estimator_schedule_not_string `{Ext : External}
    (model_name use_tpu_arg schedule : PyVal) (hparams : HParams)
    (run_config : RunConfig) (tc : TPUConfig) :
  truthy use_tpu_arg = true ->
  tpu_config run_config = Some tc ->
  (forall s, schedule <> PyStr s) ->
  create_estimator model_name hparams run_config schedule use_tpu_arg
  = Raise TypeError.
Proof.
  intros Hu Hc Hs. unfold create_estimator. rewrite Hu, Hc.
  destruct schedule as [| | |s]; try reflexivity.
  exfalso. apply (Hs s). reflexivity.
Qed.

Lemma eval_batch_size_none_iff_no_eval_witness :
  truthy (PyBool true) = true
  /\ tpu_config demo_tpu_config = Some (mkTPUConfig 500 8 true)
  /\ @create_estimator demo_types demo_external (PyStr "transformer")
       demo_hparams demo_tpu_config (PyStr "train") (PyBool true)
     = Ok (TPUEstimator (PyStr "transformer" : @ModelFn demo_types)
             (Some "/tmp/model") demo_tpu_config 128 None).
Proof.
  split; [reflexivity|]. split; [reflexivity|].
  destruct (@eval_batch_size_none_iff_no_eval demo_types demo_external
              (PyStr "transformer") (PyBool true) demo_hparams
              demo_tpu_config (mkTPUConfig 500 8 true) "train"
              eq_refl eq_refl) as (eval_bs & Hrun & _ & _).
  rewrite Hrun. vm_compute in Hrun. injection Hrun as <-. reflexivity.
Defined.

Lemma accelerator_batch_sizes_witness :
  truthy (PyBool true) = true
  /\ tpu_config demo_tpu_config = Some (mkTPUConfig 500 8 true)
  /\ @create_estimator demo_types demo_external (PyStr "transformer")
       demo_hparams demo_tpu_config (PyStr "train_and_evaluate")
       (PyBool true)
     = Ok (TPUEstimator (PyStr "transformer" : @ModelFn demo_types)
             (Some "/tmp/model") demo_tpu_config 128 (Some 256)).
Proof.
  split; [reflexivity|]. split; [reflexivity|].
  destruct (@accelerator_batch_sizes demo_types demo_external
              (PyStr "transformer") (PyBool true) demo_hparams
              demo_tpu_config (mkTPUConfig 500 8 true)
              "train_and_evaluate" eq_refl eq_refl)
    as (eval_bs & Hrun & _ & Hex).
  rewrite Hrun. destruct (Hex eq_refl eq_refl) as [_ Heval].
  rewrite (Heval eq_refl). reflexivity.
Defined.

(* --------------------------------------------------------------------- *)
(* create_experiment                                                      *)
(* --------------------------------------------------------------------- *)

Section ExperimentFacts.

Context `{Ext : External}.

Variables (run_config : RunConfig)
          (model_name problem_name data_dir_arg train_steps_arg
           eval_steps_arg min_eval_frequency_arg schedule use_tpu_arg : PyVal).

Local Abbreviation experiment :=
  (create_experiment run_config model_name problem_name data_dir_arg
                     train_steps_arg eval_steps_arg min_eval_frequency_arg
                     schedule use_tpu_arg).

(** Whatever [create_experiment] returns carries the step and frequency
    arguments as they were given. *)
Lemma create_experiment_fields (h h' : HParams) (e : Experiment) :
  experiment h = (Ok e, h') ->
  train_steps e = train_steps_arg
  /\ eval_steps e = eval_steps_arg
  /\ min_eval_frequency e = min_eval_frequency_arg
  /\ train_steps_per_iteration e = min_eval_frequency_arg.
Proof.
  unfold create_experiment, bind, update, reads, ret.
  destruct (add_hparam "data_dir" data_dir_arg h) as [h1|]; [|discriminate].
  destruct (add_problem_hparams problem_name h1) as [[[]|] h2];
    [|discriminate].
  destruct (create_estimator model_name h2 run_config schedule use_tpu_arg)
    as [est|]; [|discriminate].
  destruct (first_item (problem_instances h2)) as [p|]; [|discriminate].
  intros Heq. injection Heq as <- _. repeat split.
Qed.

(** The estimator can be built when, in accelerator mode, the run
    configuration has its accelerator sub-record and the schedule is a
    string. *)
Lemma create_estimator_returns (h : HParams) :
  (truthy use_tpu_arg = true ->
   is_Some (tpu_config run_config) /\ exists sched, schedule = PyStr sched) ->
  exists est,
    create_estimator model_name h run_config schedule use_tpu_arg = Ok est.
Proof.
  intros Hpre. unfold create_estimator.
  destruct (truthy use_tpu_arg); [|eauto].
  destruct (Hpre eq_refl) as [[tc ->] [sched ->]]. simpl. eauto.
Qed.

(** When the data directory can be added, the names are registered and the
    estimator can be built, the experiment is assembled from the first
    problem: indexing the instances cannot fail, since a split string has
    at least one name. *)
Lemma create_experiment_returns (h h1 : HParams) (names : string) :
  add_hparam "data_dir" data_dir_arg h = Ok h1 ->
  problem_name = PyStr names ->
  Forall (fun name => is_Some (registry !! name)) (split hyphen names) ->
  (truthy use_tpu_arg = true ->
   is_Some (tpu_config run_config) /\ exists sched, schedule = PyStr sched) ->
  exists e h', experiment h = (Ok e, h').
Proof.
  intros Hadd -> Hall Hpre.
  destruct (registered_total _ Hall) as [ps Hreg].
  unfold create_experiment, bind, update, reads, ret. rewrite Hadd.
  rewrite add_problem_hparams_unfold, (for_each_registered _ _ _ Hreg).
  destruct (create_estimator_returns (attach_all ps (reset_problems h1)) Hpre)
    as [est ->].
  rewrite attach_all_instances. simpl.
  destruct ps as [|p ps]; [|simpl; eauto].
  exfalso. apply (split_not_nil hyphen names).
  inversion Hreg. reflexivity.
Qed.

(** C9: every experiment [create_experiment] returns has the minimum
    evaluation frequency argument both as its minimum evaluation frequency
    and as its training-step count per iteration, so the two are equal;
    and it does return one whenever the data directory can be added, the
    problem names are registered and the estimator can be built. *)
Theorem frequency_is_steps_per_iteration (h : HParams) :
  (forall e h',
     experiment h = (Ok e, h') ->
     min_eval_frequency e = min_eval_frequency_arg
     /\ train_steps_per_iteration e = min_eval_frequency_arg
     /\ min_eval_frequency e = train_steps_per_iteration e)
  /\ (forall h1 names,
        add_hparam "data_dir" data_dir_arg h = Ok h1 ->
        problem_name = PyStr names ->
        Forall (fun name => is_Some (registry !! name))
               (split hyphen names) ->
        (truthy use_tpu_arg = true ->
         is_Some (tpu_config run_config)
         /\ exists sched, schedule = PyStr sched) ->
        exists e h', experiment h = (Ok e, h')).
Proof.
  split.
  - intros e h' Hrun.
    destruct (create_experiment_fields h h' e Hrun) as (_ & _ & Hf & Hs).
    rewrite Hf, Hs. repeat split.
  - intros h1 names. apply create_experiment_returns.
Qed.

End ExperimentFacts.

Lemma frequency_is_steps_per_iteration_witness :
  demo_add_hparam "data_dir" (PyStr "/data") demo_hparams
  = Ok (mkHParams 16 (Some (PyStr "/data"))
          (problems demo_hparams) (problem_instances demo_hparams))
  /\ Forall (fun name => is_Some (demo_registry !! name))
            (split hyphen "probA-probB")
  /\ exists e h',
       @create_experiment demo_types demo_external demo_tpu_config
         (PyStr "transformer") (PyStr "probA-probB") (PyStr "/data")
         (PyInt 100) (PyInt 10) (PyInt 50) (PyStr "train") (PyBool true)
         demo_hparams = (Ok e, h')
       /\ min_eval_frequency e = PyInt 50
       /\ train_steps_per_iteration e = PyInt 50.
Proof.
  assert (Hall : Forall (fun name => is_Some (demo_registry !! name))
                        (split hyphen "probA-probB")).
  { repeat constructor; eexists; reflexivity. }
  split; [reflexivity|]. split; [exact Hall|].
  destruct (@frequency_is_steps_per_iteration demo_types demo_external
              demo_tpu_config (PyStr "transformer") (PyStr "probA-probB")
              (PyStr "/data") (PyInt 100) (PyInt 10) (PyInt 50)
              (PyStr "train") (PyBool true) demo_hparams) as [Hfields Hret].
  destruct (Hret _ "probA-probB" eq_refl eq_refl Hall) as (e & h' & Hrun).
  { intros _. split; [eexists; reflexivity | eexists; reflexivity]. }
  exists e, h'. split; [exact Hrun|].
  destruct (Hfields e h' Hrun) as (Hf & Hs & _). split; assumption.
Defined.

(* --------------------------------------------------------------------- *)
(* create_experiment_fn                                                   *)
(* --------------------------------------------------------------------- *)

Section ExperimentFnFacts.

Context `{Ext : External}.

(** Argument binding fails in one way only. *)
Lemma bind_extra_args_error (args : list PyVal) (kwargs : gmap string PyVal)
    (e : exn) :
  bind_extra_args args kwargs = Raise e -> e = TypeError.
Proof.
  unfold bind_extra_args.
  repeat match goal with
         | |- context [if ?c then _ else _] => destruct c
         | |- context [match bind_param ?a ?k ?i ?n with _ => _ end] =>
             destruct (bind_param a k i n)
         end;
    congruence.
Qed.

(** Six positional arguments: the schedule and the accelerator flag take
    the defaults of the signature. *)
Lemma bind_six_positional (m p d ts es f : PyVal) :
  bind_extra_args [m; p; d; ts; es; f] ∅
  = Ok (mkExtraArgs m p d ts es f (PyStr "train_and_evaluate") (PyBool true)).
Proof. reflexivity. Qed.

Lemma bind_eight_positional (m p d ts es f s u : PyVal) :
  bind_extra_args [m; p; d; ts; es; f; s; u] ∅
  = Ok (mkExtraArgs m p d ts es f s u).
Proof. reflexivity. Qed.

(** More positional arguments than parameters are refused. *)
Lemma bind_too_many_positional (args : list PyVal)
    (kwargs : gmap string PyVal) :
  (8 < length args)%nat ->
  bind_extra_args args kwargs = Raise TypeError.
Proof.
  intros Hlen. unfold bind_extra_args.
  destruct (length extra_params <? length args)%nat eqn:Hc; [reflexivity|].
  apply Nat.ltb_ge in Hc. simpl in Hc. lia.
Qed.

(** A keyword that is no parameter of the remaining ones, [run_config] and
    [hparams] among them, is refused. *)
Lemma bind_unknown_keyword (args : list PyVal) (kwargs : gmap string PyVal)
    (name : string) :
  is_Some (kwargs !! name) ->
  name ∉ extra_params ->
  bind_extra_args args kwargs = Raise TypeError.
Proof.
  intros Hin Hnot. unfold bind_extra_args.
  destruct (length extra_params <? length args)%nat; [reflexivity|].
  destruct (forallb known_keyword (elements (dom kwargs))) eqn:Hall;
    [|reflexivity].
  exfalso. rewrite forallb_forall in Hall.
  specialize (Hall name). unfold known_keyword in Hall.
  rewrite bool_decide_eq_true in Hall. apply Hnot, Hall.
  apply list_elem_of_In, elem_of_elements, elem_of_dom, Hin.
Qed.

(** C6: for all captured extra arguments, the callable made by
    [create_experiment_fn], called with a run configuration and a
    hyperparameters object, gives what the direct call of
    [create_experiment] with that run configuration, that object and the
    captured arguments gives: the same result and the same writes to the
    object; that is the experiment for the bound arguments, or the
    [TypeError] of the binding with the object untouched. *)
Theorem experiment_fn_is_direct_call (args : list PyVal)
    (kwargs : gmap string PyVal) (run_config : RunConfig) (h : HParams) :
  create_experiment_fn args kwargs run_config h
  = call_create_experiment run_config args kwargs h
  /\ (forall a,
        bind_extra_args args kwargs = Ok a ->
        create_experiment_fn args kwargs run_config h
        = create_experiment run_config
            (arg_model_name a) (arg_problem_name a) (arg_data_dir a)
            (arg_train_steps a) (arg_eval_steps a)
            (arg_min_eval_frequency a) (arg_schedule a) (arg_use_tpu a) h)
  /\ (forall e,
        bind_extra_args args kwargs = Raise e ->
        create_experiment_fn args kwargs run_config h = (Raise TypeError, h)).
Proof.
  split; [reflexivity|]. unfold create_experiment_fn, call_create_experiment.
  split.
  - intros a ->. reflexivity.
  - intros e He. rewrite He, (bind_extra_args_error _ _ _ He). reflexivity.
Qed.

End ExperimentFnFacts.

Lemma experiment_fn_is_direct_call_witness :
  bind_extra_args
    [PyStr "transformer"; PyStr "probA-probB"; PyStr "/data"; PyInt 100]
    (<["eval_steps" := PyInt 10]> (<["min_eval_frequency" := PyInt 50]> ∅))
  = Ok (mkExtraArgs (PyStr "transformer") (PyStr "probA-probB")
          (PyStr "/data") (PyInt 100) (PyInt 10) (PyInt 50)
          (PyStr "train_and_evaluate") (PyBool true))
  /\ @create_experiment_fn demo_types demo_external
       [PyStr "transformer"; PyStr "probA-probB"; PyStr "/data"; PyInt 100]
       (<["eval_steps" := PyInt 10]> (<["min_eval_frequency" := PyInt 50]> ∅))
       demo_tpu_config demo_hparams
     = @create_experiment demo_types demo_external demo_tpu_config
         (PyStr "transformer") (PyStr "probA-probB") (PyStr "/data")
         (PyInt 100) (PyInt 10) (PyInt 50) (PyStr "train_and_evaluate")
         (PyBool true) demo_hparams.
Proof.
  assert (Hbind :
    bind_extra_args
      [PyStr "transformer"; PyStr "probA-probB"; PyStr "/data"; PyInt 100]
      (<["eval_steps" := PyInt 10]> (<["min_eval_frequency" := PyInt 50]> ∅))
    = Ok (mkExtraArgs (PyStr "transformer") (PyStr "probA-probB")
            (PyStr "/data") (PyInt 100) (PyInt 10) (PyInt 50)
            (PyStr "train_and_evaluate") (PyBool true)))
    by (vm_compute; reflexivity).
  split; [exact Hbind|].
  destruct (@experiment_fn_is_direct_call demo_types demo_external
    [PyStr "transformer"; PyStr "probA-probB"; PyStr "/data"; PyInt 100]
    (<["eval_steps" := PyInt 10]> (<["min_eval_frequency" := PyInt 50]> ∅))
    demo_tpu_config demo_hparams) as (_ & Hok & _).
  exact (Hok _ Hbind).
Defined.

(* ===================================================================== *)
(* Further properties of the module                                       *)
(* ===================================================================== *)

(* --------------------------------------------------------------------- *)
(* create_run_config: what each mode looks at                             *)
(* --------------------------------------------------------------------- *)

(** X1: each mode ignores the arguments of the other.  In generic mode the
    master address, the loop-iteration count and the shard count are
    dropped, so they do not change the configuration; in accelerator mode
    the GPU count, the GPU order, the CPU-sharding flag and the replica
    count do not. *)
Theorem modes_ignore_foreign_arguments
    (master1 master2 : string) (model_dir_arg : option string)
    (iters1 iters2 shards1 shards2 : Z) (log_dev : bool) (ckpt : Z)
    (gpus1 gpus2 : Z) (order1 order2 : string) (cpu1 cpu2 : bool)
    (replicas1 replicas2 : Z) :
  create_run_config master1 model_dir_arg iters1 shards1 log_dev ckpt
                    gpus1 order1 cpu1 replicas1 false
  = create_run_config master2 model_dir_arg iters2 shards2 log_dev ckpt
                      gpus1 order1 cpu1 replicas1 false
  /\ create_run_config master1 model_dir_arg iters1 shards1 log_dev ckpt
                       gpus1 order1 cpu1 replicas1 true
     = create_run_config master1 model_dir_arg iters1 shards1 log_dev ckpt
                         gpus2 order2 cpu2 replicas2 true.
Proof. split; reflexivity. Qed.

Lemma generic_num_shards_lookup
    (master_arg : string) (model_dir_arg : option string)
    (iters shards : Z) (log_dev : bool) (ckpt : Z)
    (gpus : Z) (gpu_order : string) (shard_to_cpu : bool) (replicas : Z) :
  t2t_device_info
    (create_run_config master_arg model_dir_arg iters shards log_dev ckpt
                       gpus gpu_order shard_to_cpu replicas false)
    !! "num_shards"
  = Some (PyInt (Z.max 1 (gpus + int_of_bool shard_to_cpu))).
Proof. reflexivity. Qed.

(** X2: the floor of the generic shard count is active exactly without
    GPUs: for a GPU count of zero or less the device-info shard count is 1,
    with or without CPU-sharding; from one GPU on it is the GPU count plus
    [int(shard_to_cpu)], unfloored. *)
Theorem generic_shard_count_floor
    (master_arg : string) (model_dir_arg : option string)
    (iters shards : Z) (log_dev : bool) (ckpt : Z)
    (gpus : Z) (gpu_order : string) (shard_to_cpu : bool) (replicas : Z) :
  (gpus <= 0 ->
   t2t_device_info
     (create_run_config master_arg model_dir_arg iters shards log_dev ckpt
                        gpus gpu_order shard_to_cpu replicas false)
     !! "num_shards" = Some (PyInt 1))
  /\ (1 <= gpus ->
      t2t_device_info
        (create_run_config master_arg model_dir_arg iters shards log_dev ckpt
                           gpus gpu_order shard_to_cpu replicas false)
        !! "num_shards" = Some (PyInt (gpus + int_of_bool shard_to_cpu))).
Proof.
  split; intros Hg; rewrite generic_num_shards_lookup; do 2 f_equal;
    destruct shard_to_cpu; unfold int_of_bool; lia.
Qed.

Lemma generic_shard_count_floor_witness :
  (0 <= 0 /\ 1 <= 4)
  /\ t2t_device_info
       (create_run_config "" None 1000 8 false 1000 0 "" true 1 false)
       !! "num_shards" = Some (PyInt 1)
  /\ t2t_device_info
       (create_run_config "" None 1000 8 false 1000 4 "" true 1 false)
       !! "num_shards" = Some (PyInt 5).
Proof.
  split; [lia|]. split.
  - apply (proj1 (generic_shard_count_floor
                    "" None 1000 8 false 1000 0 "" true 1)).
    lia.
  - apply (proj2 (generic_shard_count_floor
                    "" None 1000 8 false 1000 4 "" true 1)).
    lia.
Defined.

(* --------------------------------------------------------------------- *)
(* create_estimator: failures, batch sizes, and the two builders together *)
(* --------------------------------------------------------------------- *)

Section EstimatorMore.

Context `{Ext : External}.

Variables (model_name : PyVal) (hparams : HParams).

(** X4: the batch sizes handed to the accelerator estimator are whole
    multiples of the shard count: the training batch size is, and so is an
    evaluation batch size that is handed over, which is even as well. *)
Theorem batch_sizes_divisible_by_shards (run_config : RunConfig)
    (tc : TPUConfig) (schedule : string) (use_tpu_arg : PyVal)
    (model_fn : ModelFn) (dir : option string) (config : RunConfig)
    (train : Z) (eval_bs : option Z) :
  tpu_config run_config = Some tc ->
  create_estimator model_name hparams run_config (PyStr schedule) use_tpu_arg
  = Ok (TPUEstimator model_fn dir config train eval_bs) ->
  (num_shards tc | train)
  /\ (forall ev, eval_bs = Some ev -> (num_shards tc | ev) /\ (2 | ev)).
Proof.
  intros Hc. unfold create_estimator.
  destruct (truthy use_tpu_arg); [|discriminate]. rewrite Hc. simpl.
  intros [= _ _ _ <- <-]. split.
  - apply Z.divide_factor_r.
  - intros ev Hev. destruct (contains "eval" schedule); [|discriminate].
    injection Hev as <-. split.
    + apply Z.divide_mul_l, Z.divide_factor_r.
    + apply Z.divide_factor_r.
Qed.


End EstimatorMore.

Lemma batch_sizes_divisible_by_shards_witness :
  tpu_config demo_tpu_config = Some (mkTPUConfig 500 8 true)
  /\ (8 | 128) /\ (8 | 256) /\ (2 | 256).
Proof.
  split; [reflexivity|].
  destruct (@batch_sizes_divisible_by_shards demo_types demo_external
              (PyStr "transformer") demo_hparams demo_tpu_config
              (mkTPUConfig 500 8 true) "train_and_evaluate" (PyBool true)
              (PyStr "transformer" : @ModelFn demo_types)
              (Some "/tmp/model") demo_tpu_config 128 (Some 256)
              eq_refl eq_refl) as [Ht He].
  split; [exact Ht|]. exact (He 256 eq_refl).
Defined.

(* --------------------------------------------------------------------- *)
(* add_problem_hparams: every outcome                                     *)
(* --------------------------------------------------------------------- *)

(** A string is cut into one name more than it has separators. *)
Lemma split_length (sep : ascii) (s : string) :
  length (split sep s) = S (count_char sep s).
Proof.
  induction s as [|c s IH]; [reflexivity|]. simpl.
  pose proof (split_not_nil sep s) as Hnil.
  destruct (Ascii.eqb c sep); simpl.
  - rewrite IH. reflexivity.
  - destruct (split sep s) as [|piece pieces]; [contradiction|].
    simpl in *. exact IH.
Qed.

Section AttachOutcomes.

Context `{Ext : External}.

(** A list of names is registered throughout, or has a first unknown
    name. *)
Lemma names_cases (names : list string) :
  (exists ps, registered names ps)
  \/ (exists pre bad post ps,
        names = pre ++ bad :: post
        /\ registry !! bad = None
        /\ registered pre ps).
Proof.
  induction names as [|name names IH].
  - left. exists []. constructor.
  - destruct (registry !! name) as [p|] eqn:Hp.
    + destruct IH as [[ps Hreg]|(pre & bad & post & ps & -> & Hbad & Hreg)].
      * left. exists (p :: ps). constructor; assumption.
      * right. exists (name :: pre), bad, post, (p :: ps).
        repeat split; [exact Hbad|]. constructor; assumption.
    + right. exists [], name, names, [].
      repeat split; [exact Hp | constructor].
Qed.

(** Registered names are names with a problem each. *)
Lemma registered_all_some (names : list string) (ps : list Problem) :
  registered names ps ->
  Forall (fun name => is_Some (registry !! name)) names.
Proof.
  induction 1 as [|name p names ps Hp _ IH]; constructor; eauto.
Qed.

(** The two outcomes for a string: all problems attached, or the lookup
    error at the first unknown name with the problems before it
    attached. *)
Lemma add_problem_hparams_string (s : string) (h : HParams) :
  (exists ps,
     registered (split hyphen s) ps
     /\ add_problem_hparams (PyStr s) h
        = (Ok tt, attach_all ps (reset_problems h)))
  \/ (exists pre bad post ps,
        split hyphen s = pre ++ bad :: post
        /\ registry !! bad = None
        /\ registered pre ps
        /\ add_problem_hparams (PyStr s) h
           = (Raise LookupError, attach_all ps (reset_problems h))).
Proof.
  rewrite add_problem_hparams_unfold.
  destruct (names_cases (split hyphen s))
    as [[ps Hreg]|(pre & bad & post & ps & Hs & Hbad & Hreg)].
  - left. exists ps. split; [exact Hreg|]. apply for_each_registered, Hreg.
  - right. exists pre, bad, post, ps. repeat split; try assumption.
    rewrite Hs. apply for_each_unknown; assumption.
Qed.

(** An argument that is no string has no [split]: the call raises once
    both lists are reset. *)
Lemma add_problem_hparams_not_string (v : PyVal) (h : HParams) :
  (forall s, v <> PyStr s) ->
  add_problem_hparams v h = (Raise AttributeError, reset_problems h).
Proof.
  intros Hv. destruct v as [| | |s]; try reflexivity.
  exfalso. apply (Hv s). reflexivity.
Qed.

(** Whatever the argument and the outcome, the object is left as the reset
    object with some problems attached. *)
Lemma add_problem_hparams_final (v : PyVal) (h : HParams) :
  exists ps,
    snd (add_problem_hparams v h) = attach_all ps (reset_problems h).
Proof.
  destruct v as [| | |s];
    try (exists []; reflexivity).
  destruct (add_problem_hparams_string s h)
    as [(ps & _ & ->)|(pre & bad & post & ps & _ & _ & _ & ->)];
    exists ps; reflexivity.
Qed.

(** The call starts from the reset object. *)
Lemma add_problem_hparams_from_reset (v : PyVal) (h1 h2 : HParams) :
  reset_problems h1 = reset_problems h2 ->
  add_problem_hparams v h1 = add_problem_hparams v h2.
Proof.
  intros Hr.
  change (add_problem_hparams v h1)
    with (add_problem_hparams v (reset_problems h1)).
  change (add_problem_hparams v h2)
    with (add_problem_hparams v (reset_problems h2)).
  rewrite Hr. reflexivity.
Qed.

Lemma reset_attach_all (ps : list Problem) (h : HParams) :
  reset_problems (attach_all ps (reset_problems h)) = reset_problems h.
Proof.
  destruct (attach_all_other_fields ps (reset_problems h)) as [Hb Hd].
  unfold reset_problems, set_problems, set_problem_instances in *.
  simpl in *. rewrite Hb, Hd. reflexivity.
Qed.

(** X7: the two lists are kept in step.  After [add_problem_hparams], for
    every argument and whether it returned or raised, the object has as
    many derived hyperparameter sets as problem instances. *)
Theorem problem_lists_in_step (v : PyVal) (h : HParams) :
  length (problems (snd (add_problem_hparams v h)))
  = length (problem_instances (snd (add_problem_hparams v h))).
Proof.
  destruct (add_problem_hparams_final v h) as [ps ->].
  rewrite attach_all_problems_length, attach_all_instances. reflexivity.
Qed.

(** X8: [add_problem_hparams] writes to the two lists only: the batch size
    per shard and the data directory of the object are what they were,
    for every argument and whether it returned or raised. *)
Theorem add_problem_hparams_keeps_other_attributes (v : PyVal)
    (h : HParams) :
  tpu_batch_size_per_shard (snd (add_problem_hparams v h))
  = tpu_batch_size_per_shard h
  /\ data_dir (snd (add_problem_hparams v h)) = data_dir h.
Proof.
  destruct (add_problem_hparams_final v h) as [ps ->].
  apply (attach_all_other_fields ps (reset_problems h)).
Qed.

(** X9: what the lists held before does not matter, and the call is
    idempotent: with other lists in the object the outcome and the
    resulting object are the same, and calling it again on the resulting
    object, after a return or after a failure, gives the same outcome and
    the same object again. *)
Theorem add_problem_hparams_idempotent (v : PyVal) (h : HParams) :
  (forall pr pi,
     add_problem_hparams v (set_problems pr (set_problem_instances pi h))
     = add_problem_hparams v h)
  /\ add_problem_hparams v (snd (add_problem_hparams v h))
     = add_problem_hparams v h.
Proof.
  split.
  - intros pr pi. apply add_problem_hparams_from_reset. reflexivity.
  - apply add_problem_hparams_from_reset.
    destruct (add_problem_hparams_final v h) as [ps ->].
    apply reset_attach_all.
Qed.

(** X10: an argument that is not a string fails with [AttributeError],
    and the failure is not clean: both lists were emptied before the split
    was tried. *)
Theorem add_problem_hparams_not_a_string (v : PyVal) (h : HParams) :
  (forall s, v <> PyStr s) ->
  fst (add_problem_hparams v h) = Raise AttributeError
  /\ problems (snd (add_problem_hparams v h)) = []
  /\ problem_instances (snd (add_problem_hparams v h)) = [].
Proof.
  intros Hv. rewrite (add_problem_hparams_not_string v h Hv).
  repeat split.
Qed.

(** X11: when [add_problem_hparams] returns, the object holds one problem
    instance and one derived set per name, and the names are one more than
    the hyphens of the string. *)
Theorem attached_count_is_hyphens_plus_one (s : string) (h h' : HParams) :
  add_problem_hparams (PyStr s) h = (Ok tt, h') ->
  length (problem_instances h') = S (count_char hyphen s)
  /\ length (problems h') = S (count_char hyphen s).
Proof.
  intros Hrun.
  destruct (add_problem_hparams_string s h)
    as [(ps & Hreg & Hok)|(pre & bad & post & ps & _ & _ & _ & Hbad)].
  - rewrite Hok in Hrun. injection Hrun as <-.
    rewrite attach_all_problems_length, attach_all_instances. simpl.
    rewrite <- (Forall2_length _ _ _ Hreg), split_length. split; reflexivity.
  - rewrite Hbad in Hrun. discriminate.
Qed.

(** X12: for a string, [add_problem_hparams] returns exactly when every
    name of the string is in the registry, and when it does not return it
    raises the lookup error and nothing else. *)
Theorem add_problem_hparams_returns_iff (s : string) (h : HParams) :
  (fst (add_problem_hparams (PyStr s) h) = Ok tt
   <-> Forall (fun name => is_Some (registry !! name)) (split hyphen s))
  /\ (fst (add_problem_hparams (PyStr s) h) = Ok tt
      \/ fst (add_problem_hparams (PyStr s) h) = Raise LookupError).
Proof.
  destruct (add_problem_hparams_string s h)
    as [(ps & Hreg & ->)|(pre & bad & post & ps & Hs & Hbad & _ & ->)];
    simpl.
  - split; [|left; reflexivity].
    split; [intros _; eapply registered_all_some, Hreg | reflexivity].
  - split; [|right; reflexivity].
    split; [discriminate|]. intros Hall. exfalso.
    rewrite Hs in Hall. apply Forall_app in Hall as [_ Hall].
    inversion Hall as [|? ? [p Hp] _]; subst. congruence.
Qed.

(** X13: the empty string and a string that starts with a hyphen name the
    empty problem first.  Unless the registry has a problem of that name,
    the call raises the lookup error with both lists empty. *)
Theorem empty_first_name_is_looked_up (s : string) (h : HParams) :
  registry !! EmptyString = None ->
  s = EmptyString \/ (exists rest, s = String hyphen rest) ->
  add_problem_hparams (PyStr s) h = (Raise LookupError, reset_problems h).
Proof.
  intros Hnone [->|[rest ->]]; rewrite add_problem_hparams_unfold.
  - apply (for_each_unknown [] EmptyString [] []); [constructor | exact Hnone].
  - change (split hyphen (String hyphen rest))
      with ([] ++ EmptyString :: split hyphen rest).
    apply (for_each_unknown [] EmptyString _ []); [constructor | exact Hnone].
Qed.

End AttachOutcomes.

Lemma add_problem_hparams_not_a_string_witness :
  (forall s, PyInt 3 <> PyStr s)
  /\ @add_problem_hparams demo_types demo_external (PyInt 3) demo_hparams
     = (Raise AttributeError, mkHParams 16 None [] []).
Proof.
  assert (Hv : forall s, PyInt 3 <> PyStr s) by discriminate.
  split; [exact Hv|].
  destruct (@add_problem_hparams_not_a_string demo_types demo_external
              (PyInt 3) demo_hparams Hv) as (Hf & Hp & Hi).
  destruct (@add_problem_hparams demo_types demo_external (PyInt 3)
              demo_hparams) as [r [b d pr pi]] eqn:Hrun.
  simpl in Hf, Hp, Hi. subst r pr pi.
  vm_compute in Hrun. injection Hrun as <- <-. reflexivity.
Defined.

Lemma attached_count_is_hyphens_plus_one_witness :
  @add_problem_hparams demo_types demo_external (PyStr "probA-probB-probA")
    demo_hparams
  = (Ok tt,
     mkHParams 16 None
       ([("probA", 0%nat); ("probB", 1%nat); ("probA", 2%nat)]
          : list (@PHParams demo_types))
       (["probA"; "probB"; "probA"] : list (@Problem demo_types)))
  /\ length (["probA"; "probB"; "probA"] : list (@Problem demo_types))
     = S (count_char hyphen "probA-probB-probA").
Proof.
  assert (Hrun :
    @add_problem_hparams demo_types demo_external (PyStr "probA-probB-probA")
      demo_hparams
    = (Ok tt,
       mkHParams 16 None
         ([("probA", 0%nat); ("probB", 1%nat); ("probA", 2%nat)]
            : list (@PHParams demo_types))
         (["probA"; "probB"; "probA"] : list (@Problem demo_types))))
    by reflexivity.
  split; [exact Hrun|].
  exact (proj1 (@attached_count_is_hyphens_plus_one demo_types demo_external
                  _ _ _ Hrun)).
Defined.

Lemma empty_first_name_is_looked_up_witness :
  demo_registry !! EmptyString = None
  /\ @add_problem_hparams demo_types demo_external (PyStr "-probA")
       demo_hparams
     = (Raise LookupError, mkHParams 16 None [] []).
Proof.
  split; [reflexivity|].
  apply (@empty_first_name_is_looked_up demo_types demo_external
           "-probA" demo_hparams eq_refl).
  right. exists "probA". reflexivity.
Defined.

(* --------------------------------------------------------------------- *)
(* create_experiment: the order of its steps                              *)
(* --------------------------------------------------------------------- *)

Section ExperimentOutcomes.

Context `{Ext : External}.

Variables (run_config : RunConfig)
          (model_name problem_name data_dir_arg train_steps_arg
           eval_steps_arg min_eval_frequency_arg schedule use_tpu_arg : PyVal).

Local Abbreviation experiment :=
  (create_experiment run_config model_name problem_name data_dir_arg
                     train_steps_arg eval_steps_arg min_eval_frequency_arg
                     schedule use_tpu_arg).

(** The steps after the data directory was added, one after the other. *)
Lemma create_experiment_steps (h h1 : HParams) :
  add_hparam "data_dir" data_dir_arg h = Ok h1 ->
  experiment h
  = match add_problem_hparams problem_name h1 with
    | (Raise e, h2) => (Raise e, h2)
    | (Ok _, h2) =>
        match create_estimator model_name h2 run_config schedule
                               use_tpu_arg with
        | Raise e => (Raise e, h2)
        | Ok est =>
            match first_item (problem_instances h2) with
            | Raise e => (Raise e, h2)
            | Ok p =>
                (Ok (mkExperiment est
                       (make_estimator_input_fn p TRAIN h2)
                       (make_estimator_input_fn p EVAL h2)
                       train_steps_arg eval_steps_arg
                       min_eval_frequency_arg min_eval_frequency_arg), h2)
            end
        end
    end.
Proof.
  intros Hadd. unfold create_experiment, bind, update, reads, ret.
  rewrite Hadd.
  destruct (add_problem_hparams problem_name h1) as [[[]|e] h2];
    [|reflexivity].
  destruct (create_estimator model_name h2 run_config schedule use_tpu_arg);
    [|reflexivity].
  destruct (first_item (problem_instances h2)); reflexivity.
Qed.

(** The estimator builder raises nothing but its two errors. *)
Lemma create_estimator_error_kinds (h : HParams) (e : exn) :
  create_estimator model_name h run_config schedule use_tpu_arg = Raise e ->
  e = AttributeError \/ e = TypeError.
Proof.
  unfold create_estimator. destruct (truthy use_tpu_arg); [|discriminate].
  destruct (tpu_config run_config); [|intros [= <-]; left; reflexivity].
  destruct schedule; simpl; try discriminate;
    intros [= <-]; right; reflexivity.
Qed.

(** X14: the data directory is added first.  When [add_hparam] refuses it,
    [create_experiment] raises that error and has written nothing: the
    problem lists are not reset and no problem is looked up. *)
Theorem create_experiment_add_hparam_refused (h : HParams) (e : exn) :
  add_hparam "data_dir" data_dir_arg h = Raise e ->
  experiment h = (Raise e, h).
Proof.
  intros Hadd. unfold create_experiment, bind, update. rewrite Hadd.
  reflexivity.
Qed.

(** X15: a returned experiment takes both input functions from the problem
    registered under the first name of the problem string, the other
    problems are attached but give no input; the input functions are made
    against the object as the call leaves it, and the estimator is the one
    [create_estimator] builds from that same object. *)
Theorem experiment_inputs_from_first_problem (h h' : HParams)
    (e : Experiment) :
  experiment h = (Ok e, h') ->
  exists h1 names first rest p0,
    add_hparam "data_dir" data_dir_arg h = Ok h1
    /\ problem_name = PyStr names
    /\ split hyphen names = first :: rest
    /\ registry !! first = Some p0
    /\ h' = snd (add_problem_hparams problem_name h1)
    /\ train_input_fn e = make_estimator_input_fn p0 TRAIN h'
    /\ eval_input_fn e = make_estimator_input_fn p0 EVAL h'
    /\ create_estimator model_name h' run_config schedule use_tpu_arg
       = Ok (estimator e).
Proof.
  destruct (add_hparam "data_dir" data_dir_arg h) as [h1|ex] eqn:Hadd.
  2:{ unfold create_experiment, bind, update. rewrite Hadd. discriminate. }
  rewrite (create_experiment_steps h h1 Hadd).
  destruct problem_name as [| | |names]; try discriminate.
  destruct (add_problem_hparams_string names h1)
    as [(ps & Hreg & Hok)|(pre & bad & post & ps & _ & _ & _ & Hbad)].
  2:{ rewrite Hbad. discriminate. }
  rewrite Hok.
  destruct (create_estimator model_name (attach_all ps (reset_problems h1))
              run_config schedule use_tpu_arg) as [est|] eqn:Hest;
    [|discriminate].
  rewrite attach_all_instances. simpl. intros Hrun.
  destruct (split hyphen names) as [|first rest] eqn:Hsplit.
  { exfalso. exact (split_not_nil hyphen names Hsplit). }
  inversion Hreg as [|? p0 ? ps' Hp Hreg']; subst.
  simpl in Hrun. injection Hrun as <- <-.
  exists h1, names, first, rest, p0. rewrite Hok. simpl.
  repeat split; assumption.
Qed.

(** X16: indexing the first problem instance never fails.  Unless
    [add_hparam] itself raises it, [create_experiment] does not raise
    [IndexError], for any arguments: a problem string always has a first
    name, and an unknown one fails in the registry before. *)
Theorem create_experiment_never_index_error (h : HParams) :
  add_hparam "data_dir" data_dir_arg h <> Raise IndexError ->
  fst (experiment h) <> Raise IndexError.
Proof.
  intros Hadd.
  destruct (add_hparam "data_dir" data_dir_arg h) as [h1|ex] eqn:Hh.
  2:{ unfold create_experiment, bind, update. rewrite Hh. simpl. congruence. }
  rewrite (create_experiment_steps h h1 Hh).
  destruct problem_name as [| | |names]; try discriminate.
  destruct (add_problem_hparams_string names h1)
    as [(ps & Hreg & ->)|(pre & bad & post & ps & _ & _ & _ & ->)];
    [|discriminate].
  destruct (create_estimator model_name (attach_all ps (reset_problems h1))
              run_config schedule use_tpu_arg) as [est|ex] eqn:Hest.
  - rewrite attach_all_instances. simpl.
    destruct (split hyphen names) as [|first rest] eqn:Hsplit.
    { exfalso. exact (split_not_nil hyphen names Hsplit). }
    inversion Hreg; subst. discriminate.
  - simpl. destruct (create_estimator_error_kinds _ _ Hest) as [-> | ->];
      discriminate.
Qed.

(** X17: an unknown problem name fails before the estimator is built.
    Whatever the run configuration, the schedule and the accelerator flag
    are, [create_experiment] raises the lookup error; the object is not
    rolled back: it keeps what [add_hparam] wrote and the problems attached
    before the unknown name. *)
Theorem unknown_name_fails_before_estimator (h h1 : HParams)
    (names : string) :
  add_hparam "data_dir" data_dir_arg h = Ok h1 ->
  problem_name = PyStr names ->
  Exists (fun name => registry !! name = None) (split hyphen names) ->
  experiment h
  = (Raise LookupError, snd (add_problem_hparams (PyStr names) h1)).
Proof.
  intros Hadd Hname Hex.
  rewrite (create_experiment_steps h h1 Hadd), Hname.
  destruct (add_problem_hparams_string names h1)
    as [(ps & Hreg & ->)|(pre & bad & post & ps & _ & _ & _ & ->)];
    [|reflexivity].
  exfalso. apply registered_all_some in Hreg.
  rewrite Forall_forall in Hreg. apply Exists_exists in Hex as (name & Hin & Hnone).
  destruct (Hreg name Hin) as [p Hp]. congruence.
Qed.

End ExperimentOutcomes.

Lemma create_experiment_add_hparam_refused_witness :
  demo_add_hparam "data_dir" (PyStr "/data")
    (mkHParams 16 (Some (PyStr "/old")) (problems demo_hparams)
               (problem_instances demo_hparams))
  = Raise ValueError
  /\ @create_experiment demo_types demo_external demo_tpu_config
       (PyStr "transformer") (PyStr "probA-probB") (PyStr "/data")
       (PyInt 100) (PyInt 10) (PyInt 50) (PyStr "train") (PyBool true)
       (mkHParams 16 (Some (PyStr "/old")) (problems demo_hparams)
                  (problem_instances demo_hparams))
     = (Raise ValueError,
        mkHParams 16 (Some (PyStr "/old")) (problems demo_hparams)
                  (problem_instances demo_hparams)).
Proof.
  split; [reflexivity|].
  apply (@create_experiment_add_hparam_refused demo_types demo_external).
  reflexivity.
Defined.

Lemma experiment_inputs_from_first_problem_witness :
  exists e h',
    @create_experiment demo_types demo_external demo_tpu_config
      (PyStr "transformer") (PyStr "probB-probA") (PyStr "/data")
      (PyInt 100) (PyInt 10) (PyInt 50) (PyStr "train") (PyBool true)
      demo_hparams = (Ok e, h')
    /\ train_input_fn e = (("probB", TRAIN) : @InputFn demo_types)
    /\ eval_input_fn e = (("probB", EVAL) : @InputFn demo_types).
Proof.
  destruct (@create_experiment_returns demo_types demo_external
              demo_tpu_config (PyStr "transformer") (PyStr "probB-probA")
              (PyStr "/data") (PyInt 100) (PyInt 10) (PyInt 50)
              (PyStr "train") (PyBool true) demo_hparams _ "probB-probA"
              eq_refl eq_refl) as (e & h' & Hrun).
  { repeat constructor; eexists; reflexivity. }
  { intros _. split; eexists; reflexivity. }
  exists e, h'. split; [exact Hrun|].
  destruct (@experiment_inputs_from_first_problem demo_types demo_external
              _ _ _ _ _ _ _ _ _ _ _ _ Hrun)
    as (h1 & names & first & rest & p0 & _ & Hname & Hsplit & Hp & _
        & Htrain & Heval & _).
  injection Hname as <-. vm_compute in Hsplit. injection Hsplit as <- <-.
  vm_compute in Hp. injection Hp as <-.
  rewrite Htrain, Heval. split; reflexivity.
Defined.

Lemma create_experiment_never_index_error_witness :
  demo_add_hparam "data_dir" (PyStr "/data") demo_hparams
  <> Raise IndexError
  /\ fst (@create_experiment demo_types demo_external demo_tpu_config
            (PyStr "transformer") (PyStr "") (PyStr "/data")
            (PyInt 100) (PyInt 10) (PyInt 50) (PyStr "train") (PyBool true)
            demo_hparams)
     <> Raise IndexError.
Proof.
  assert (Hadd : demo_add_hparam "data_dir" (PyStr "/data") demo_hparams
                 <> Raise IndexError) by discriminate.
  split; [exact Hadd|].
  apply (@create_experiment_never_index_error demo_types demo_external).
  exact Hadd.
Defined.

Lemma unknown_name_fails_before_estimator_witness :
  Exists (fun name => demo_registry !! name = None)
         (split hyphen "probA-probX")
  /\ @create_experiment demo_types demo_external
       (create_run_config "" None 1000 8 false 1000 1 "" false 1 false)
       (PyStr "transformer") (PyStr "probA-probX") (PyStr "/data")
       (PyInt 100) (PyInt 10) (PyInt 50) PyNone (PyBool true)
       demo_hparams
     = (Raise LookupError,
        mkHParams 16 (Some (PyStr "/data"))
          ([("probA", 0%nat)] : list (@PHParams demo_types))
          (["probA"] : list (@Problem demo_types))).
Proof.
  assert (Hex : Exists (fun name => demo_registry !! name = None)
                       (split hyphen "probA-probX")).
  { apply Exists_cons_tl, Exists_cons_hd. reflexivity. }
  split; [exact Hex|].
  rewrite (@unknown_name_fails_before_estimator demo_types demo_external
             _ _ _ _ _ _ _ _ _ demo_hparams _ "probA-probX"
             eq_refl eq_refl Hex).
  reflexivity.
Defined.

(* --------------------------------------------------------------------- *)
(* create_experiment_fn: what the captured arguments become               *)
(* --------------------------------------------------------------------- *)

Section ExperimentFnMore.

Context `{Ext : External}.

Variables (run_config : RunConfig) (h : HParams).

(** Too few positional arguments and no keywords leave a required
    parameter without a value. *)
Lemma bind_missing_required (args : list PyVal) :
  (length args < 6)%nat ->
  bind_extra_args args ∅ = Raise TypeError.
Proof.
  intros Hlen.
  do 6 (destruct args as [|? args]; [reflexivity|]).
  simpl in Hlen. lia.
Qed.

(** X18: the defaults of the signature apply to the closure.  With the six
    required arguments captured and nothing else, the callable runs
    [create_experiment] with schedule "train_and_evaluate" in accelerator
    mode; with the schedule captured as well, still in accelerator mode. *)
Theorem experiment_fn_defaults (m p d ts es f s : PyVal) :
  create_experiment_fn [m; p; d; ts; es; f] ∅ run_config h
  = create_experiment run_config m p d ts es f
      (PyStr "train_and_evaluate") (PyBool true) h
  /\ create_experiment_fn [m; p; d; ts; es; f; s] ∅ run_config h
     = create_experiment run_config m p d ts es f s (PyBool true) h.
Proof. split; reflexivity. Qed.

(** X19: captured arguments that do not fit the signature are found out
    when the callable is called, not when it is made, and before anything
    is written: with more than eight positional arguments, with a keyword
    that is none of the eight parameters ([run_config] and [hparams], which
    the callable passes itself, among them), or with fewer than six
    positional arguments and no keywords, the call raises [TypeError] and
    the hyperparameters object is as it was. *)
Theorem experiment_fn_bad_arguments (args : list PyVal)
    (kwargs : gmap string PyVal) :
  (8 < length args)%nat
  \/ (exists name, is_Some (kwargs !! name) /\ name ∉ extra_params)
  \/ ((length args < 6)%nat /\ kwargs = ∅) ->
  create_experiment_fn args kwargs run_config h = (Raise TypeError, h).
Proof.
  intros Hbad. unfold create_experiment_fn, call_create_experiment.
  assert (Hbind : bind_extra_args args kwargs = Raise TypeError).
  { destruct Hbad as [Hlen|[(name & Hin & Hnot)|[Hlen ->]]].
    - apply bind_too_many_positional, Hlen.
    - eapply bind_unknown_keyword; eassumption.
    - apply bind_missing_required, Hlen. }
  rewrite Hbind. reflexivity.
Qed.

(** X20: arguments captured by position and by keyword make the same
    callable: all eight by position, all eight by keyword, or the first
    three by position and the others by keyword. *)
Theorem experiment_fn_keywords_as_positions (m p d ts es f s u : PyVal) :
  create_experiment_fn []
    (<["model_name" := m]> (<["problem_name" := p]> (<["data_dir" := d]>
     (<["train_steps" := ts]> (<["eval_steps" := es]>
     (<["min_eval_frequency" := f]> (<["schedule" := s]>
     (<["use_tpu" := u]> ∅))))))))
    run_config h
  = create_experiment_fn [m; p; d; ts; es; f; s; u] ∅ run_config h
  /\ create_experiment_fn [m; p; d]
       (<["train_steps" := ts]> (<["eval_steps" := es]>
        (<["min_eval_frequency" := f]> (<["schedule" := s]>
        (<["use_tpu" := u]> ∅)))))
       run_config h
     = create_experiment_fn [m; p; d; ts; es; f; s; u] ∅ run_config h.
Proof. split; reflexivity. Qed.

End ExperimentFnMore.

Lemma experiment_fn_bad_arguments_witness :
  (exists name,
     is_Some ((<["hparams" := PyInt 0]> ∅ : gmap string PyVal) !! name)
     /\ name ∉ extra_params)
  /\ @create_experiment_fn demo_types demo_external
       [PyStr "transformer"; PyStr "probA"; PyStr "/data"; PyInt 100;
        PyInt 10; PyInt 50]
       (<["hparams" := PyInt 0]> ∅) demo_tpu_config demo_hparams
     = (Raise TypeError, demo_hparams).
Proof.
  assert (Hkw : exists name,
            is_Some ((<["hparams" := PyInt 0]> ∅ : gmap string PyVal) !! name)
            /\ name ∉ extra_params).
  { exists "hparams". split; [eexists; reflexivity|].
    unfold extra_params. intros Hin.
    repeat (apply elem_of_cons in Hin as [Heq|Hin]; [discriminate|]).
    inversion Hin. }
  split; [exact Hkw|].
  apply (@experiment_fn_bad_arguments demo_types demo_external).
  right. left. exact Hkw.
Defined.

(* --------------------------------------------------------------------- *)
(* create_estimator with the calls that can refuse                        *)
(* --------------------------------------------------------------------- *)

Section EstimatorChecked.

Context {T : ExternalTypes} {Ext : @External T} {Con : @Constructors T}.

Variables (model_name : PyVal) (hparams : HParams).

(** Where the three calls do not refuse, this is [create_estimator]. *)
Lemma create_estimator_checked_total (run_config : RunConfig)
    (schedule use_tpu_arg : PyVal) :
  (forall m h u, estimator_model_fn m h u
                 = Ok (make_estimator_model_fn m h u)) ->
  (forall fn dir config train ev,
     new_tpu_estimator fn dir config train ev
     = Ok (TPUEstimator fn dir config train ev)) ->
  (forall fn dir config,
     new_estimator fn dir config = Ok (GenericEstimator fn dir config)) ->
  create_estimator_checked model_name hparams run_config schedule use_tpu_arg
  = create_estimator model_name hparams run_config schedule use_tpu_arg.
Proof.
  intros Hfn Htpu Hgen. unfold create_estimator_checked, create_estimator.
  rewrite Hfn. destruct (truthy use_tpu_arg); [|apply Hgen].
  destruct (tpu_config run_config); [|reflexivity].
  destruct (py_not_in "eval" schedule); [apply Htpu | reflexivity].
Qed.

(** The accelerator branch for a schedule string, once the model function
    and the accelerator sub-record are there. *)
Lemma create_estimator_checked_accelerated (run_config : RunConfig)
    (tc : TPUConfig) (schedule : string) (use_tpu_arg : PyVal)
    (model_fn : ModelFn) :
  estimator_model_fn model_name hparams use_tpu_arg = Ok model_fn ->
  truthy use_tpu_arg = true ->
  tpu_config run_config = Some tc ->
  create_estimator_checked model_name hparams run_config (PyStr schedule)
                           use_tpu_arg
  = new_tpu_estimator model_fn (model_dir run_config) run_config
      (tpu_batch_size_per_shard hparams * num_shards tc)
      (if contains "eval" schedule
       then Some (tpu_batch_size_per_shard hparams * num_shards tc * 2)
       else None).
Proof.
  intros Hfn Hu Hc. unfold create_estimator_checked.
  rewrite Hfn, Hu, Hc. simpl.
  destruct (contains "eval" schedule); reflexivity.
Qed.

(** X3: the failures of [create_estimator], all of them and in their
    order.  It raises what the model-function call raises; after that, in
    accelerator mode, [AttributeError] when the run configuration has no
    accelerator sub-record, whatever the schedule is, [TypeError] when it
    has one and the schedule is not a string, and else what the
    constructor of the accelerator estimator raises for the two batch
    sizes; in generic mode, what the constructor of the generic estimator
    raises.  The module adds two failures of its own to those of the calls
    it makes, and none in generic mode. *)
Theorem create_estimator_checked_failures (run_config : RunConfig)
    (schedule use_tpu_arg : PyVal) (e : exn) :
  create_estimator_checked model_name hparams run_config schedule use_tpu_arg
  = Raise e
  <-> estimator_model_fn model_name hparams use_tpu_arg = Raise e
      \/ (exists model_fn,
            estimator_model_fn model_name hparams use_tpu_arg = Ok model_fn
            /\ ((truthy use_tpu_arg = true
                 /\ tpu_config run_config = None
                 /\ e = AttributeError)
                \/ (truthy use_tpu_arg = true
                    /\ is_Some (tpu_config run_config)
                    /\ (forall s, schedule <> PyStr s)
                    /\ e = TypeError)
                \/ (exists tc s,
                      truthy use_tpu_arg = true
                      /\ tpu_config run_config = Some tc
                      /\ schedule = PyStr s
                      /\ new_tpu_estimator model_fn (model_dir run_config)
                           run_config
                           (tpu_batch_size_per_shard hparams * num_shards tc)
                           (if contains "eval" s
                            then Some (tpu_batch_size_per_shard hparams
                                       * num_shards tc * 2)
                            else None)
                         = Raise e)
                \/ (truthy use_tpu_arg = false
                    /\ new_estimator model_fn (model_dir run_config)
                                     run_config
                       = Raise e))).
Proof.
  destruct (estimator_model_fn model_name hparams use_tpu_arg)
    as [model_fn|e0] eqn:Hfn.
  2:{ unfold create_estimator_checked. rewrite Hfn. split.
      - intros [= <-]. left. reflexivity.
      - intros [[= <-]|(fn & Hfn' & _)]; [reflexivity | discriminate]. }
  destruct (truthy use_tpu_arg) eqn:Hu.
  2:{ unfold create_estimator_checked. rewrite Hfn, Hu. split.
      - intros Heq. right. exists model_fn. split; [reflexivity|].
        right. right. right. split; [reflexivity | exact Heq].
      - intros [Heq|(fn & [= <-] & Hcases)]; [discriminate|].
        destruct Hcases as [(Ht & _)|[(Ht & _)|[(tc & s & Ht & _)|(_ & Heq)]]];
          [discriminate .. | exact Heq]. }
  destruct (tpu_config run_config) as [tc|] eqn:Hc.
  2:{ unfold create_estimator_checked. rewrite Hfn, Hu, Hc. split.
      - intros [= <-]. right. exists model_fn. split; [reflexivity|].
        left. repeat split.
      - intros [Heq|(fn & _ & Hcases)]; [discriminate|].
        destruct Hcases
          as [(_ & _ & ->)|[(_ & [tc' Htc] & _)|[(tc' & s & _ & Htc & _)
                                                 |(Ht & _)]]];
          [reflexivity | discriminate ..]. }
  destruct schedule as [| | |s].
  4:{ rewrite (create_estimator_checked_accelerated _ tc s _ model_fn
                 Hfn Hu Hc).
      split.
      - intros Heq. right. exists model_fn. split; [reflexivity|].
        right. right. left. exists tc, s. repeat split. exact Heq.
      - intros [Heq|(fn & [= <-] & Hcases)]; [discriminate|].
        destruct Hcases
          as [(_ & Hn & _)|[(_ & _ & Hs & _)|[(tc' & s' & _ & Htc & Hs & Heq)
                                              |(Ht & _)]]].
        + discriminate.
        + exfalso. apply (Hs s). reflexivity.
        + injection Htc as <-. injection Hs as <-. exact Heq.
        + discriminate. }
  all: unfold create_estimator_checked; rewrite Hfn, Hu, Hc; simpl; split.
  all: try (intros [= <-]; right; exists model_fn; split; [reflexivity|];
            right; left; split; [reflexivity|]; split; [eauto|];
            split; [discriminate | reflexivity]).
  all: intros [Heq|(fn & _ & Hcases)]; [discriminate|];
       destruct Hcases
         as [(_ & Hn & _)|[(_ & _ & _ & ->)|[(tc' & s' & _ & _ & Hs & _)
                                             |(Ht & _)]]];
       [discriminate | reflexivity | discriminate | discriminate].
Qed.

(** X6: the two builders in accelerator mode, when both return.  The
    estimator is then the one the constructor of the accelerator estimator
    made around the run configuration and its model directory, with a
    training batch size of [tpu_batch_size_per_shard] times the shard
    count requested from the run-configuration builder, which is at least
    1, and with no evaluation batch size or twice the training one. *)
Theorem accelerator_builders_compose (accepts : Z -> Z -> bool -> bool)
    (master_arg : string) (model_dir_arg : option string)
    (iters shards : Z) (log_dev : bool) (ckpt : Z)
    (gpus : Z) (gpu_order : string) (shard_to_cpu : bool) (replicas : Z)
    (schedule : string) (config : RunConfig) (est : Estimator) :
  (forall i n p, accepts i n p = true -> 1 <= n) ->
  create_run_config_checked accepts master_arg model_dir_arg iters shards
    log_dev ckpt gpus gpu_order shard_to_cpu replicas true
  = Ok config ->
  create_estimator_checked model_name hparams config (PyStr schedule)
                           (PyBool true)
  = Ok est ->
  exists model_fn eval_bs,
    estimator_model_fn model_name hparams (PyBool true) = Ok model_fn
    /\ new_tpu_estimator model_fn model_dir_arg config
         (tpu_batch_size_per_shard hparams * shards) eval_bs
       = Ok est
    /\ 1 <= shards
    /\ (eval_bs = None
        \/ eval_bs = Some (tpu_batch_size_per_shard hparams * shards * 2)).
Proof.
  intros Hacc Hcfg Hest.
  pose proof (create_run_config_checked_value _ _ _ _ _ _ _ _ _ _ _ _ _ Hcfg)
    as Hval.
  rewrite create_run_config_checked_accelerated in Hcfg.
  destruct (accepts iters shards (shards <=? 8)) eqn:Hok; [|discriminate].
  clear Hcfg. subst config.
  destruct (estimator_model_fn model_name hparams (PyBool true))
    as [model_fn|e0] eqn:Hfn.
  2:{ unfold create_estimator_checked in Hest. rewrite Hfn in Hest.
      discriminate. }
  rewrite (create_estimator_checked_accelerated
             (create_run_config master_arg model_dir_arg iters shards
                log_dev ckpt gpus gpu_order shard_to_cpu replicas true)
             (mkTPUConfig iters shards (shards <=? 8)) schedule _ model_fn
             Hfn eq_refl eq_refl) in Hest.
  simpl in Hest.
  exists model_fn. eexists. split; [reflexivity|].
  split; [exact Hest|]. split; [eapply Hacc, Hok|].
  destruct (contains "eval" schedule); [right | left]; reflexivity.
Qed.

End EstimatorChecked.

Lemma accelerator_builders_compose_witness :
  (forall i n p, positive_counts i n p = true -> 1 <= n)
  /\ create_run_config_checked positive_counts "grpc://tpu"
       (Some "/tmp/model") 500 8 false 1000 1 "" false 1 true
     = Ok demo_tpu_config
  /\ @create_estimator_checked demo_types demo_constructors
       (PyStr "transformer") demo_hparams demo_tpu_config
       (PyStr "train_and_evaluate") (PyBool true)
     = Ok (TPUEstimator (PyStr "transformer" : @ModelFn demo_types)
             (Some "/tmp/model") demo_tpu_config 128 (Some 256))
  /\ exists model_fn eval_bs,
       @estimator_model_fn demo_types demo_constructors
         (PyStr "transformer") demo_hparams (PyBool true) = Ok model_fn
       /\ @new_tpu_estimator demo_types demo_constructors model_fn
            (Some "/tmp/model") demo_tpu_config
            (tpu_batch_size_per_shard demo_hparams * 8) eval_bs
          = Ok (TPUEstimator (PyStr "transformer" : @ModelFn demo_types)
                  (Some "/tmp/model") demo_tpu_config 128 (Some 256))
       /\ 1 <= 8
       /\ (eval_bs = None
           \/ eval_bs = Some (tpu_batch_size_per_shard demo_hparams * 8 * 2)).
Proof.
  assert (Hcfg :
    create_run_config_checked positive_counts "grpc://tpu"
      (Some "/tmp/model") 500 8 false 1000 1 "" false 1 true
    = Ok demo_tpu_config) by reflexivity.
  assert (Hest :
    @create_estimator_checked demo_types demo_constructors
      (PyStr "transformer") demo_hparams demo_tpu_config
      (PyStr "train_and_evaluate") (PyBool true)
    = Ok (TPUEstimator (PyStr "transformer" : @ModelFn demo_types)
            (Some "/tmp/model") demo_tpu_config 128 (Some 256)))
    by reflexivity.
  split; [exact positive_counts_shards|]. split; [exact Hcfg|].
  split; [exact Hest|].
  exact (@accelerator_builders_compose demo_types demo_constructors
           (PyStr "transformer") demo_hparams positive_counts
           "grpc://tpu" (Some "/tmp/model") 500 8 false 1000 1 "" false 1
           "train_and_evaluate" demo_tpu_config _
           positive_counts_shards Hcfg Hest).
Defined.
